(** * trans.py: the localization sync script of wire-webapp

    A shallow embedding of [src/trans.py] and the properties of it that the
    specification states.  The script shells out to [crowdin-cli] twice, then
    walks [app/script/localization/], strips country suffixes from file
    names, deletes the files of unsupported locales and rewrites the content
    of the others.

    Modelling choices:
    - Python byte strings are [string] (a list of 8-bit characters);
    - the file system is a finite map from paths to contents, the standard
      output is the text written so far; both are threaded explicitly;
    - an unhandled Python exception is the [Raise] outcome of [result];
    - the directory holds regular files only, and [os.path.join root name]
      is [root +:+ name] because [root] ends with a slash and a directory
      entry never starts with one. *)

From Stdlib Require Import ZArith Lia Ascii.
From stdpp Require Import gmap strings.

Local Open Scope Z_scope.

(* Let [simpl] compute concatenations of literals. *)
#[local] Arguments String.append !_ _ / : simpl nomatch.

(** ** Characters that cannot be written inside a literal *)

Definition nl : ascii := "010"%char.
Definition dquote : ascii := "034"%char.
Definition str (c : ascii) : string := String c "".

(** ** The built-in string operations the script uses *)

Module Py.

(** [len(s)] *)
Definition len (s : string) : nat := String.length s.

(** [s.replace('', new)]: [new] goes before every character and at the end. *)
Fixpoint interleave (new s : string) : string :=
  match s with
  | "" => new
  | String c s' => new +:+ String c (interleave new s')
  end.

(** The scan of [s.replace(old, new)] for a non-empty [old]: left to right,
    a match at the current position emits [new] and jumps over the matched
    text ([skip] counts the characters of it still to jump over), otherwise
    the current character is copied. *)
Fixpoint replace_from (old new : string) (skip : nat) (s : string) : string :=
  match s with
  | "" => ""
  | String c s' =>
      match skip with
      | S k => replace_from old new k s'
      | O =>
          if String.prefix old s
          then new +:+ replace_from old new (String.length old - 1) s'
          else String c (replace_from old new 0 s')
      end
  end.

(** [s.replace(old, new)] *)
Definition replace (old new s : string) : string :=
  match old with
  | "" => interleave new s
  | _ => replace_from old new 0 s
  end.

(** [s.split(sep)] for a one-character separator: always at least one
    component, one more than the number of separators. *)
Fixpoint split (sep : ascii) (s : string) : list string :=
  match s with
  | "" => [""]
  | String c s' =>
      if Ascii.eqb c sep then "" :: split sep s'
      else match split sep s' with
           | h :: t => String c h :: t
           | [] => [str c]
           end
  end.

(** [s.rfind(c)] for a one-character [c]: the highest index of [c], or -1. *)
Fixpoint rfind (c : ascii) (s : string) : Z :=
  match s with
  | "" => -1
  | String d s' =>
      let r := rfind c s' in
      if 0 <=? r then r + 1
      else if Ascii.eqb d c then 0 else -1
  end.

(** [s[:k]]: a negative [k] counts from the end, and the bound is clipped
    to the string. *)
Definition slice_to (k : Z) (s : string) : string :=
  let n := Z.of_nat (String.length s) in
  let stop := if k <? 0 then Z.max 0 (n + k) else Z.min k n in
  String.substring 0 (Z.to_nat stop) s.

(** [x in l] for a list of strings *)
Definition mem (x : string) (l : list string) : bool :=
  existsb (String.eqb x) l.

End Py.

(** ** The script's constants *)

Definition SUPPORTED_LOCALE : list string :=
  ["de"; "es"; "hr"; "fi"; "ro"; "ru"].

Definition upload_cmd : string :=
  "crowdin-cli --identity=keys/crowdin.yaml upload sources".
Definition download_cmd : string :=
  "crowdin-cli --identity=keys/crowdin.yaml download".

Definition root : string := "app/script/localization/".

Definition generator_line : string := "#X-Generator: crowdin.com" +:+ str nl.
Definition zstr : string := "z.string.".
Definition zstrl (locale : string) : string := "z.string." +:+ locale +:+ ".".

(** ** The world the script acts on *)

Record world : Type := World {
  files : gmap string string;
  stdout : string
}.

(** The exception of a file that is not there.  Other failures of the
    file system (permissions, a directory in place of a file, undecodable
    content) have no counterpart in the file map and are outside the
    model. *)
Inductive exn : Type :=
| FileNotFoundError (path : string).

(** The outcome of a piece of the script: a value, or an exception that
    nothing catches, together with the world it leaves behind. *)
Inductive result (A : Type) : Type :=
| Ok (a : A)
| Raise (e : exn) (w : world).
Arguments Ok {A} a.
Arguments Raise {A} e w.

(** Sequencing stops at the first exception. *)
#[global] Instance result_bind : MBind result := fun A B k m =>
  match m with
  | Ok a => k a
  | Raise e w => Raise e w
  end.

(** [os.path.join(root, filename)] *)
Definition path_of (filename : string) : string := root +:+ filename.

(** [shutil.move(source, dest)] between two file paths of one directory: a
    rename that replaces an existing destination; a missing source raises. *)
Definition shutil_move (source dest : string) (w : world) : result world :=
  match files w !! source with
  | Some content =>
      Ok (World (<[dest := content]> (delete source (files w))) (stdout w))
  | None => Raise (FileNotFoundError source) w
  end.

(** [os.remove(path)] *)
Definition os_remove (path : string) (w : world) : result world :=
  match files w !! path with
  | Some _ => Ok (World (delete path (files w)) (stdout w))
  | None => Raise (FileNotFoundError path) w
  end.

(** [open(path, 'r').read()] *)
Definition read_file (path : string) (w : world) : result string :=
  match files w !! path with
  | Some content => Ok content
  | None => Raise (FileNotFoundError path) w
  end.

(** [open(path, 'w')] followed by one [f.write(content)] *)
Definition write_file (path content : string) (w : world) : world :=
  World (<[path := content]> (files w)) (stdout w).

(** [sys.stdout.write(text)] *)
Definition stdout_write (text : string) (w : world) : world :=
  World (files w) (stdout w +:+ text).

(** ** The script's functions *)

(** [remove_country(filename)] *)
Definition remove_country (filename : string) (w : world) : result world :=
  match Py.split "-" filename with
  | [p0; p1; _] =>
      shutil_move (path_of filename) (path_of (p0 +:+ "-" +:+ p1 +:+ ".coffee")) w
  | _ => Ok w
  end.

(** [get_locale(filename)] *)
Definition get_locale (filename : string) : option string :=
  let locale := Py.replace ".coffee" "" (Py.replace "strings-" "" filename) in
  if Nat.eqb (Py.len locale) 2 then Some locale else None.

(** The two chained replacements on the namespace tokens. *)
Definition swap_namespace (locale source : string) : string :=
  Py.replace zstr (zstrl locale) (Py.replace (zstrl locale) zstr source).

(** The four substitutions, in the order of the script. *)
Definition substitute (locale source : string) : string :=
  let source := Py.replace generator_line "" source in
  let source := swap_namespace locale source in
  let source := Py.replace "='" " = '" source in
  Py.replace "\:" ":" source.

(** [source[:source.rfind('\n')]] *)
Definition truncate (source : string) : string :=
  Py.slice_to (Py.rfind nl source) source.

(** What is written back for a file that held [source]. *)
Definition rewrite_content (locale source : string) : string :=
  truncate (substitute locale source).

(** The line reported for a deleted file. *)
Definition removal_message (locale path : string) : string :=
  "Removing unsupported locale " +:+ str dquote +:+ locale +:+ str dquote
  +:+ " (" +:+ path +:+ ")" +:+ str nl.

(** What the loop does with a file name once its locale has been derived. *)
Definition process (filename : string) (w : world) : result world :=
  match get_locale filename with
  | Some locale =>
      if negb (Py.mem locale SUPPORTED_LOCALE) then
        let file_to_delete := path_of filename in
        os_remove file_to_delete
          (stdout_write (removal_message locale file_to_delete) w)
      else
        source ← read_file (path_of filename) w;
        Ok (write_file (path_of filename) (rewrite_content locale source) w)
  | None => Ok w
  end.

(** One iteration of the loop over the directory listing. *)
Definition loop_body (filename : string) (w : world) : result world :=
  w ← remove_country filename w;
  process filename w.

(** The loop over the listing, taken once before the first iteration. *)
Fixpoint run_loop (listing : list string) (w : world) : result world :=
  match listing with
  | [] => Ok w
  | filename :: rest =>
      w ← loop_body filename w;
      run_loop rest w
  end.

(** The whole script.  [os_system cmd] is the external command: it returns
    an exit status and may change the files; [os_listdir] enumerates the
    entries of [root] in whatever order the platform gives.  The change of
    the working directory only fixes what [root] is relative to: paths are
    relative to the directory of the script throughout. *)
Section Script.
Variable os_system : string -> gmap string string -> Z * gmap string string.
Variable os_listdir : gmap string string -> list string.

Definition main (w : world) : result world :=
  let '(_, fs1) := os_system upload_cmd (files w) in
  let '(_, fs2) := os_system download_cmd fs1 in
  run_loop (os_listdir fs2) (World fs2 (stdout w)).
End Script.

(** The sample content of the specification. *)
Definition example_source : string :=
  "#X-Generator: crowdin.com" +:+ str nl +:+
  "z.string.hello = 1" +:+ str nl +:+
  "z.string.de.world = 2" +:+ str nl.


(** ** Notions used in the statements *)

(** [c in s] for a character *)
Fixpoint has_char (c : ascii) (s : string) : bool :=
  match s with
  | "" => false
  | String d s' => Ascii.eqb d c || has_char c s'
  end.

(** No proper non-empty suffix of [old] is a prefix of [old]: two
    occurrences of such a pattern never overlap. *)
Fixpoint no_border (old suffix : string) : bool :=
  match suffix with
  | "" => true
  | String _ s' => negb (String.prefix suffix old) && no_border old s'
  end.

Definition border_free (old : string) : bool :=
  match old with
  | "" => false
  | String _ t => no_border old t
  end.

(** The text without its last character. *)
Fixpoint drop_last (s : string) : string :=
  match s with
  | "" => ""
  | String c s' =>
      match s' with
      | "" => ""
      | String _ _ => String c (drop_last s')
      end
  end.

(** [s] without its prefix [p], if it has that prefix. *)
Fixpoint strip_prefix (p s : string) : option string :=
  match p with
  | "" => Some s
  | String a p' =>
      match s with
      | "" => None
      | String b s' => if Ascii.eqb a b then strip_prefix p' s' else None
      end
  end.

(** The entry name of a path directly under [root], if it is one. *)
Definition entry_of (path : string) : option string :=
  match strip_prefix root path with
  | Some name => if has_char "/" name then None else Some name
  | None => None
  end.

(** A directory listing for a flat directory of regular files: the files
    directly under [root], in the order of the map. *)
Definition listdir (fs : gmap string string) : list string :=
  omap (fun kv => entry_of (fst kv)) (map_to_list fs).

(** An external command that fails: non-zero exit status, no file touched. *)
Definition failing_command (cmd : string) (fs : gmap string string)
  : Z * gmap string string := (256, fs).

(** A locale or country code that cannot be mistaken for a part of the file
    name pattern: it holds no dash, no dot and no letter s. *)
Definition plain_code (s : string) : bool :=
  negb (has_char "-" s) && negb (has_char "." s) && negb (has_char "s" s).

(** The names the translation service gives its files. *)
Definition locale_file (locale : string) : string :=
  "strings-" +:+ locale +:+ ".coffee".
Definition country_file (locale country : string) : string :=
  "strings-" +:+ locale +:+ "-" +:+ country +:+ ".coffee".

(** [p] occurs somewhere in [s]. *)
Definition occurs (p s : string) : Prop := exists u v, s = u +:+ p +:+ v.

(** The test [p in s] for two strings. *)
Fixpoint contains (p s : string) : bool :=
  match s with
  | "" => String.prefix p ""
  | String _ s' => String.prefix p s || contains p s'
  end.

(** The name [remove_country] moves a file to, if it moves it. *)
Definition renamed_name (filename : string) : option string :=
  match Py.split "-" filename with
  | [p0; p1; _] => Some (p0 +:+ "-" +:+ p1 +:+ ".coffee")
  | _ => None
  end.

(** The world a piece of the script leaves behind, whether it ends normally
    or with an exception. *)
Definition outcome (r : result world) : world :=
  match r with
  | Ok w => w
  | Raise _ w => w
  end.

(** A code that can stand in a file name: it holds no dash and no dot. *)
Definition code_chars (s : string) : bool :=
  negb (has_char "-" s) && negb (has_char "." s).

(** The lines a run over [listing] prints when it ends normally: one for
    every entry with an unsupported locale, in the order of the listing. *)
Definition report_entry (filename : string) : string :=
  match get_locale filename with
  | Some locale =>
      if Py.mem locale SUPPORTED_LOCALE then ""
      else removal_message locale (path_of filename)
  | None => ""
  end.

Fixpoint report (listing : list string) : string :=
  match listing with
  | [] => ""
  | filename :: rest => report_entry filename +:+ report rest
  end.

(** ** Sample directories *)

(** One file of an unsupported and one of a supported locale. *)
Definition dir_fr_de : world :=
  World {[ path_of "strings-fr.coffee" := "z.string.bonjour = 1" +:+ str nl;
           path_of "strings-de.coffee" := example_source ]} "".

(** A single file [name] holding [content], nothing printed yet. *)
Definition dir_single (name content : string) : world :=
  World {[ path_of name := content ]} "".

(** ** Facts about strings *)

Section StringFacts.

Lemma app_empty_r (s : string) : s +:+ "" = s.
Proof. induction s as [|c s IH]; simpl; congruence. Qed.

Lemma app_assoc_str (a b c : string) : (a +:+ b) +:+ c = a +:+ b +:+ c.
Proof. induction a as [|x a IH]; simpl; congruence. Qed.

Lemma length_app_str (a b : string) :
  String.length (a +:+ b) = (String.length a + String.length b)%nat.
Proof. induction a as [|x a IH]; simpl; congruence. Qed.

Lemma length_zero (s : string) : String.length s = 0%nat -> s = "".
Proof. destruct s; simpl; [reflexivity | discriminate]. Qed.

Lemma prefix_cons (c d : ascii) (p s : string) :
  String.prefix (String c p) (String d s) = true <-> c = d /\ String.prefix p s = true.
Proof.
  simpl. destruct (ascii_dec c d) as [->|Hne].
  - split; [intros H; split; [reflexivity | exact H] | intros [_ H]; exact H].
  - split; [discriminate | intros [Heq _]; contradiction].
Qed.

Lemma prefix_cons_ne (c d : ascii) (p s : string) :
  c <> d -> String.prefix (String c p) (String d s) = false.
Proof. intros Hne. simpl. destruct (ascii_dec c d); [contradiction | reflexivity]. Qed.

Lemma prefix_app (p t : string) : String.prefix p (p +:+ t) = true.
Proof.
  induction p as [|c p IH]; simpl; [destruct t; reflexivity |].
  destruct (ascii_dec c c); [exact IH | contradiction].
Qed.

Lemma prefix_split (p s : string) :
  String.prefix p s = true -> exists t, s = p +:+ t.
Proof.
  revert s. induction p as [|c p IH]; intros s H.
  - exists s. reflexivity.
  - destruct s as [|d s]; [discriminate |].
    apply prefix_cons in H as [-> H]. destruct (IH _ H) as [t ->].
    exists t. reflexivity.
Qed.

Lemma prefix_app_l (p a r : string) :
  String.prefix p a = true -> String.prefix p (a +:+ r) = true.
Proof.
  intros H. destruct (prefix_split _ _ H) as [t ->].
  rewrite app_assoc_str. apply prefix_app.
Qed.

Lemma prefix_app_same (p q s : string) :
  String.prefix (p +:+ q) (p +:+ s) = String.prefix q s.
Proof.
  induction p as [|c p IH]; simpl; [reflexivity |].
  destruct (ascii_dec c c); [exact IH | contradiction].
Qed.

(** A prefix of [a +:+ r] either lies within [a] or runs over into [r]. *)
Lemma prefix_app_cases (p a r : string) :
  String.prefix p (a +:+ r) = true ->
  String.prefix p a = true \/
  exists y, y <> "" /\ p = a +:+ y /\ String.prefix y r = true.
Proof.
  revert a. induction p as [|c p IH]; intros a H.
  - left. destruct a; reflexivity.
  - destruct a as [|x a].
    + right. exists (String c p). repeat split; [discriminate | exact H].
    + simpl in H. change (String.prefix (String c p) (String x (a +:+ r)) = true) in H.
      apply prefix_cons in H as [-> H].
      destruct (IH _ H) as [Hin | (y & Hy & -> & Hpre)].
      * left. apply prefix_cons. split; [reflexivity | exact Hin].
      * right. exists y. repeat split; assumption.
Qed.

Lemma has_char_app (c : ascii) (a b : string) :
  has_char c (a +:+ b) = has_char c a || has_char c b.
Proof.
  induction a as [|x a IH]; simpl; [reflexivity |].
  rewrite IH. apply orb_assoc.
Qed.

Lemma no_border_suffix (old suffix a y : string) :
  no_border old suffix = true -> suffix = a +:+ y -> y <> "" ->
  String.prefix y old = false.
Proof.
  revert a. induction suffix as [|c s IH]; intros a Hnb Heq Hy.
  - destruct a; simpl in Heq; [congruence | discriminate].
  - simpl in Hnb. apply andb_true_iff in Hnb as [Hhere Hrest].
    destruct a as [|x a]; simpl in Heq.
    + subst y. apply negb_true_iff in Hhere. exact Hhere.
    + injection Heq as _ Heq. eapply IH; eassumption.
Qed.

Lemma border_free_overlap (old a y : string) :
  border_free old = true -> old = a +:+ y -> a <> "" -> y <> "" ->
  String.prefix y old = false.
Proof.
  intros Hbf Heq Ha Hy. destruct old as [|c t]; [discriminate |].
  destruct a as [|x a]; [congruence |]. simpl in Heq. injection Heq as _ Heq.
  eapply no_border_suffix; eassumption.
Qed.

(** Text without the character [c] in front of two ways to cut a string:
    the cut that starts with [c] lies behind that text. *)
Lemma plain_prefix_split (c : ascii) (w r u p : string) :
  has_char c w = false -> w +:+ r = u +:+ String c p ->
  exists u', u = w +:+ u' /\ r = u' +:+ String c p.
Proof.
  revert u. induction w as [|d w IH]; intros u Hw Heq.
  - exists u. split; [reflexivity | exact Heq].
  - simpl in Hw. apply orb_false_iff in Hw as [Hd Hw].
    destruct u as [|e u]; simpl in Heq; injection Heq as Hhead Heq.
    + subst d. rewrite Ascii.eqb_refl in Hd. discriminate.
    + subst e. destruct (IH u Hw Heq) as (u' & -> & Hr).
      exists u'. split; [reflexivity | exact Hr].
Qed.

End StringFacts.

(** ** Facts about [replace] *)

Section ReplaceFacts.
Variables old new : string.
Hypothesis old_nonempty : old <> "".

Local Abbreviation scan := (Py.replace_from old new 0).

Lemma replace_is_scan (s : string) : Py.replace old new s = scan s.
Proof. unfold Py.replace. destruct old; [congruence | reflexivity]. Qed.

Lemma replace_from_skip (a s : string) :
  Py.replace_from old new (String.length a) (a +:+ s) = scan s.
Proof. induction a as [|x a IH]; simpl; [reflexivity | exact IH]. Qed.

Lemma scan_hit (t : string) : scan (old +:+ t) = new +:+ scan t.
Proof.
  pose proof (prefix_app old t) as Hpre.
  pose proof (replace_from_skip) as Hskip.
  destruct old as [|c o']; [congruence |].
  specialize (Hskip o' t).
  change (String c o' +:+ t) with (String c (o' +:+ t)) in *.
  cbn [Py.replace_from]. rewrite Hpre.
  replace (String.length (String c o') - 1)%nat with (String.length o')
    by (simpl; lia).
  rewrite Hskip. reflexivity.
Qed.

Lemma scan_miss (c : ascii) (s : string) :
  String.prefix old (String c s) = false -> scan (String c s) = String c (scan s).
Proof. intros H. cbn [Py.replace_from]. rewrite H. reflexivity. Qed.

(** The scan restarts afresh at [r] when no match that begins before [r]
    can reach into it. *)
Lemma scan_app (r : string) :
  (forall a, a <> "" -> String.prefix old (a +:+ r) = true ->
             String.prefix old a = true) ->
  forall a, scan (a +:+ r) = scan a +:+ scan r.
Proof.
  intros Hsep a.
  remember (String.length a) as n eqn:Hn.
  revert a Hn. induction n as [n IH] using lt_wf_ind. intros a Hn.
  destruct a as [|x a']; [reflexivity |].
  destruct (String.prefix old (String x a' +:+ r)) eqn:Hpre.
  - apply Hsep in Hpre; [| discriminate].
    destruct (prefix_split _ _ Hpre) as [a2 Ha2].
    rewrite Ha2, app_assoc_str, !scan_hit, app_assoc_str. f_equal.
    apply (IH (String.length a2)); [| reflexivity].
    subst n. rewrite Ha2, length_app_str.
    destruct old; [congruence | simpl; lia].
  - assert (String.prefix old (String x a') = false) as Hpre'.
    { destruct (String.prefix old (String x a')) eqn:E; [| reflexivity].
      rewrite (prefix_app_l _ _ r E) in Hpre. discriminate. }
    change (String x a' +:+ r) with (String x (a' +:+ r)) in *.
    rewrite (scan_miss _ _ Hpre), (scan_miss _ _ Hpre'). simpl. f_equal.
    apply (IH (String.length a')); [subst n; simpl; lia | reflexivity].
Qed.

(** Around an occurrence of a pattern that cannot overlap itself, the
    text before and the text after are rewritten independently. *)
Lemma scan_occurrence (a b : string) :
  border_free old = true ->
  scan (a +:+ old +:+ b) = scan a +:+ new +:+ scan b.
Proof.
  intros Hbf. rewrite scan_app, scan_hit; [reflexivity |].
  intros a0 Ha0 Hpre.
  destruct (prefix_app_cases _ _ _ Hpre) as [Hin | (y & Hy & Heq & Hy')];
    [exact Hin |].
  exfalso.
  destruct (prefix_app_cases _ _ _ Hy') as [Hyold | (y' & Hy'ne & Hyeq & _)].
  - rewrite (border_free_overlap old a0 y Hbf Heq Ha0 Hy) in Hyold. discriminate.
  - apply (f_equal String.length) in Heq.
    rewrite Hyeq, !length_app_str in Heq.
    destruct a0; [congruence | simpl in Heq; lia].
Qed.

(** The scan also restarts at any character that is the head of the
    pattern and does not occur again inside it. *)
Lemma scan_at_head (c : ascii) (o' a t : string) :
  old = String c o' -> has_char c o' = false ->
  scan (a +:+ String c t) = scan a +:+ scan (String c t).
Proof.
  intros Hold Hc. apply scan_app.
  intros a0 Ha0 Hpre.
  destruct (prefix_app_cases _ _ _ Hpre) as [Hin | (y & Hy & Heq & Hy')];
    [exact Hin |].
  exfalso. destruct y as [|d y]; [congruence |].
  apply prefix_cons in Hy' as [-> _].
  destruct a0 as [|x a0]; [congruence |].
  rewrite Hold in Heq. simpl in Heq. injection Heq as _ Heq.
  rewrite Heq, has_char_app in Hc. simpl in Hc.
  rewrite Ascii.eqb_refl, orb_true_r in Hc. discriminate.
Qed.

(** Text without the head character of the pattern is copied. *)
Lemma scan_copy (c : ascii) (o' u s : string) :
  old = String c o' -> has_char c u = false -> scan (u +:+ s) = u +:+ scan s.
Proof.
  intros Hold. induction u as [|d u IH]; intros Hu; [reflexivity |].
  simpl in Hu. apply orb_false_iff in Hu as [Hd Hu].
  change (String d u +:+ s) with (String d (u +:+ s)).
  rewrite scan_miss.
  - simpl. f_equal. apply IH, Hu.
  - rewrite Hold. apply prefix_cons_ne. intros ->.
    rewrite Ascii.eqb_refl in Hd. discriminate.
Qed.

(** Replacing introduces no character that neither the text nor the
    replacement holds. *)
Lemma replace_from_has_char (c : ascii) (skip : nat) (s : string) :
  has_char c new = false -> has_char c s = false ->
  has_char c (Py.replace_from old new skip s) = false.
Proof.
  intros Hnew. revert skip. induction s as [|d s IH]; intros skip Hs;
    [reflexivity |].
  simpl in Hs. apply orb_false_iff in Hs as [Hd Hs].
  cbn [Py.replace_from]. destruct skip as [|k]; [| apply IH, Hs].
  destruct (String.prefix old (String d s)).
  - rewrite has_char_app, Hnew. apply IH, Hs.
  - simpl. rewrite Hd. apply IH, Hs.
Qed.

(** A pattern holding a character the text lacks never matches. *)
Lemma scan_absent (c : ascii) (s : string) :
  has_char c old = true -> has_char c s = false -> scan s = s.
Proof.
  intros Hold. induction s as [|d s IH]; intros Hs; [reflexivity |].
  rewrite scan_miss.
  - f_equal. apply IH. simpl in Hs. apply orb_false_iff in Hs as [_ Hs]. exact Hs.
  - destruct (String.prefix old (String d s)) eqn:E; [| reflexivity].
    destruct (prefix_split _ _ E) as [t Ht].
    rewrite Ht, has_char_app, Hold in Hs. discriminate.
Qed.

(** With a non-empty replacement, a non-empty text stays non-empty. *)
Lemma scan_nonempty (s : string) : new <> "" -> s <> "" -> scan s <> "".
Proof.
  intros Hnew Hs. destruct s as [|d s]; [congruence |].
  cbn [Py.replace_from]. destruct (String.prefix old (String d s)).
  - destruct new; [congruence | discriminate].
  - discriminate.
Qed.

End ReplaceFacts.

(** ** The namespace step *)

Section Namespace.

Lemma supported_cases (locale : string) :
  Py.mem locale SUPPORTED_LOCALE = true ->
  locale = "de" \/ locale = "es" \/ locale = "hr" \/
  locale = "fi" \/ locale = "ro" \/ locale = "ru".
Proof.
  unfold Py.mem, SUPPORTED_LOCALE. cbn [existsb]. intros H.
  repeat (apply orb_true_iff in H as [H | H];
          [apply String.eqb_eq in H; tauto |]).
  discriminate.
Qed.

Lemma supported_no_z (locale : string) :
  Py.mem locale SUPPORTED_LOCALE = true -> has_char "z" locale = false.
Proof.
  intros H. destruct (supported_cases _ H) as [-> | [-> | [-> | [-> | [-> | ->]]]]];
    reflexivity.
Qed.

Lemma supported_no_nl (locale : string) :
  Py.mem locale SUPPORTED_LOCALE = true -> has_char nl locale = false.
Proof.
  intros H. destruct (supported_cases _ H) as [-> | [-> | [-> | [-> | [-> | ->]]]]];
    reflexivity.
Qed.

Variable locale : string.
Hypothesis locale_no_z : has_char "z" locale = false.

Local Abbreviation unqualify := (Py.replace_from (zstrl locale) zstr 0).
Local Abbreviation qualify := (Py.replace_from zstr (zstrl locale) 0).

Lemma swap_is_scans (s : string) :
  swap_namespace locale s = qualify (unqualify s).
Proof. reflexivity. Qed.

Lemma zstrl_tail_no_z : has_char "z" (".string." +:+ locale +:+ ".") = false.
Proof.
  change (".string." +:+ locale +:+ ".") with (".string." +:+ (locale +:+ ".")).
  rewrite !has_char_app, locale_no_z. reflexivity.
Qed.

Lemma zstrl_nonempty : zstrl locale <> "".
Proof. discriminate. Qed.

Lemma zstr_nonempty : zstr <> "".
Proof. discriminate. Qed.

Lemma zstrl_shape (t : string) :
  zstrl locale +:+ t = String "z" ((".string." +:+ locale +:+ ".") +:+ t).
Proof. reflexivity. Qed.

Lemma unqualify_qualified (a b : string) :
  unqualify (a +:+ zstrl locale +:+ b) = unqualify a +:+ zstr +:+ unqualify b.
Proof.
  rewrite zstrl_shape.
  rewrite (scan_at_head _ _ zstrl_nonempty "z" (".string." +:+ locale +:+ "."));
    [| reflexivity | apply zstrl_tail_no_z].
  rewrite <- zstrl_shape, (scan_hit _ _ zstrl_nonempty). reflexivity.
Qed.

Lemma unqualify_unqualified (a b : string) :
  String.prefix (locale +:+ ".") b = false ->
  unqualify (a +:+ zstr +:+ b) = unqualify a +:+ zstr +:+ unqualify b.
Proof.
  intros Hb.
  change (zstr +:+ b) with (String "z" (".string." +:+ b)).
  rewrite (scan_at_head _ _ zstrl_nonempty "z" (".string." +:+ locale +:+ "."));
    [| reflexivity | apply zstrl_tail_no_z].
  f_equal. rewrite scan_miss.
  - rewrite (scan_copy _ _ "z" (".string." +:+ locale +:+ ".")); reflexivity.
  - change (String "z" (".string." +:+ b)) with ("z.string." +:+ b).
    change (zstrl locale) with ("z.string." +:+ (locale +:+ ".")).
    rewrite prefix_app_same. exact Hb.
Qed.

Lemma qualify_unqualified (a b : string) :
  qualify (a +:+ zstr +:+ b) = qualify a +:+ zstrl locale +:+ qualify b.
Proof. apply (scan_occurrence _ _ zstr_nonempty). reflexivity. Qed.

Lemma swap_qualified (a b : string) :
  swap_namespace locale (a +:+ zstrl locale +:+ b)
  = swap_namespace locale a +:+ zstrl locale +:+ swap_namespace locale b.
Proof. rewrite !swap_is_scans, unqualify_qualified. apply qualify_unqualified. Qed.

Lemma swap_unqualified (a b : string) :
  String.prefix (locale +:+ ".") b = false ->
  swap_namespace locale (a +:+ zstr +:+ b)
  = swap_namespace locale a +:+ zstrl locale +:+ swap_namespace locale b.
Proof.
  intros Hb. rewrite !swap_is_scans, unqualify_unqualified by exact Hb.
  apply qualify_unqualified.
Qed.

(** What the qualifying scan copies from a text without [z] in front. *)
Lemma qualify_plain_prefix (w t v : string) :
  has_char "z" w = false -> qualify t = w +:+ v ->
  exists t', t = w +:+ t' /\ qualify t' = v.
Proof.
  revert t. induction w as [|d w IH]; intros t Hw Heq.
  - exists t. split; [reflexivity | exact Heq].
  - simpl in Hw. apply orb_false_iff in Hw as [Hd Hw].
    destruct t as [|x t]; [discriminate |].
    destruct (String.prefix zstr (String x t)) eqn:Hpre.
    + destruct (prefix_split _ _ Hpre) as [t1 Ht1].
      rewrite Ht1, (scan_hit _ _ zstr_nonempty) in Heq.
      simpl in Heq. injection Heq as <- _. discriminate.
    + rewrite (scan_miss _ _ _ _ Hpre) in Heq. simpl in Heq.
      injection Heq as -> Heq. destruct (IH t Hw Heq) as (t' & -> & Hv).
      exists t'. split; [reflexivity | exact Hv].
Qed.

(** Unqualifying undoes qualifying. *)
Lemma unqualify_qualify (t : string) : unqualify (qualify t) = t.
Proof.
  remember (String.length t) as n eqn:Hn.
  revert t Hn. induction n as [n IH] using lt_wf_ind. intros t Hn.
  destruct t as [|x t0]; [reflexivity |].
  destruct (String.prefix zstr (String x t0)) eqn:Hpre.
  - destruct (prefix_split _ _ Hpre) as [t1 Ht1]. rewrite Ht1.
    rewrite (scan_hit _ _ zstr_nonempty), (scan_hit _ _ zstrl_nonempty).
    f_equal. apply (IH (String.length t1)); [| reflexivity].
    subst n. rewrite Ht1, length_app_str. simpl. lia.
  - rewrite (scan_miss _ _ _ _ Hpre). rewrite scan_miss.
    + f_equal. apply (IH (String.length t0)); [subst n; simpl; lia | reflexivity].
    + destruct (String.prefix (zstrl locale) (String x (qualify t0))) eqn:E;
        [| reflexivity].
      destruct (prefix_split _ _ E) as [r Hr]. simpl in Hr.
      injection Hr as -> Hr.
      change (String "." (String "s" (String "t" (String "r" (String "i"
               (String "n" (String "g" (String "." ((locale +:+ ".") +:+ r)))))))))
        with (".string." +:+ ((locale +:+ ".") +:+ r)) in Hr.
      destruct (qualify_plain_prefix ".string." t0 _ eq_refl Hr) as (t' & -> & _).
      change (String "z" (".string." +:+ t')) with (zstr +:+ t') in Hpre.
      rewrite prefix_app in Hpre. discriminate.
Qed.

Lemma swap_idempotent (s : string) :
  swap_namespace locale (swap_namespace locale s) = swap_namespace locale s.
Proof. rewrite !swap_is_scans, unqualify_qualify. reflexivity. Qed.

(** Whatever the qualifying scan is given, every token of its result is
    followed by the locale. *)
Lemma qualify_no_bare_token (t u v : string) :
  qualify t = u +:+ zstr +:+ v -> String.prefix (locale +:+ ".") v = true.
Proof.
  remember (String.length t) as n eqn:Hn.
  revert t u Hn. induction n as [n IH] using lt_wf_ind. intros t u Hn Heq.
  destruct t as [|x t0]; [destruct u; discriminate |].
  destruct (String.prefix zstr (String x t0)) eqn:Hpre.
  - destruct (prefix_split _ _ Hpre) as [t1 Ht1].
    assert (String.length t1 < n)%nat as Hlt
      by (subst n; rewrite Ht1, length_app_str; simpl; lia).
    rewrite Ht1, (scan_hit _ _ zstr_nonempty), zstrl_shape in Heq.
    destruct u as [|y u]; simpl in Heq.
    + injection Heq as Heq. rewrite <- Heq. apply prefix_app.
    + injection Heq as _ Heq.
      change (String "." (String "s" (String "t" (String "r" (String "i"
               (String "n" (String "g" (String "." ((locale +:+ ".") +:+ qualify t1)))))))))
        with ((".string." +:+ locale +:+ ".") +:+ qualify t1) in Heq.
      destruct (plain_prefix_split "z" _ _ _ _ zstrl_tail_no_z Heq)
        as (u' & _ & Hq).
      exact (IH _ Hlt t1 u' eq_refl Hq).
  - rewrite (scan_miss _ _ _ _ Hpre) in Heq.
    destruct u as [|y u]; simpl in Heq; injection Heq as Hx Heq.
    + exfalso. subst x.
      change (String "." (String "s" (String "t" (String "r" (String "i"
               (String "n" (String "g" (String "." v))))))))
        with (".string." +:+ v) in Heq.
      destruct (qualify_plain_prefix ".string." t0 _ eq_refl Heq) as (t' & -> & _).
      change (String "z" (".string." +:+ t')) with (zstr +:+ t') in Hpre.
      rewrite prefix_app in Hpre. discriminate.
    + apply (IH (String.length t0)) with (t := t0) (u := u);
        [subst n; simpl; lia | reflexivity | exact Heq].
Qed.

Lemma swap_no_bare_token (s u v : string) :
  swap_namespace locale s = u +:+ zstr +:+ v ->
  String.prefix (locale +:+ ".") v = true.
Proof. rewrite swap_is_scans. apply qualify_no_bare_token. Qed.

End Namespace.

(** ** The truncation step *)

Section Truncation.

Lemma rfind_absent (c : ascii) (s : string) :
  has_char c s = false -> Py.rfind c s = -1.
Proof.
  induction s as [|d s IH]; intros H; [reflexivity |].
  simpl in H. apply orb_false_iff in H as [Hd Hs].
  cbn [Py.rfind]. rewrite (IH Hs), Hd. reflexivity.
Qed.

Lemma substring_drop_last (s : string) :
  String.substring 0 (String.length s - 1) s = drop_last s.
Proof.
  induction s as [|c s IH]; [reflexivity |].
  destruct s as [|d s]; [reflexivity |].
  replace (String.length (String c (String d s)) - 1)%nat
    with (S (String.length (String d s) - 1)) by (simpl; lia).
  cbn [String.substring drop_last]. f_equal. exact IH.
Qed.

Lemma slice_to_minus_one (s : string) : Py.slice_to (-1) s = drop_last s.
Proof.
  unfold Py.slice_to. cbn [Z.ltb Z.compare].
  rewrite <- substring_drop_last. f_equal. lia.
Qed.

Lemma truncate_without_newline (s : string) :
  has_char nl s = false -> truncate s = drop_last s.
Proof.
  intros H. unfold truncate. rewrite (rfind_absent _ _ H).
  apply slice_to_minus_one.
Qed.

Lemma drop_last_snoc (s : string) :
  s <> "" -> exists c, s = drop_last s +:+ str c.
Proof.
  induction s as [|c s IH]; intros Hs; [congruence |].
  destruct s as [|d s].
  - exists c. reflexivity.
  - destruct IH as [e He]; [discriminate |].
    exists e. cbn [drop_last]. simpl. f_equal. exact He.
Qed.

Lemma zstrl_without_newline (locale : string) :
  has_char nl locale = false -> has_char nl (zstrl locale) = false.
Proof.
  intros Hl. change (zstrl locale) with ("z.string." +:+ (locale +:+ ".")).
  rewrite !has_char_app, Hl. reflexivity.
Qed.

Lemma substitute_without_newline (locale source : string) :
  has_char nl locale = false -> has_char nl source = false ->
  has_char nl (substitute locale source) = false.
Proof.
  intros Hl Hs. unfold substitute, swap_namespace.
  rewrite !replace_is_scan by discriminate.
  repeat (apply replace_from_has_char;
          [first [reflexivity | apply zstrl_without_newline, Hl] |]).
  exact Hs.
Qed.

Lemma substitute_nonempty (locale source : string) :
  has_char nl source = false -> source <> "" -> substitute locale source <> "".
Proof.
  intros Hnl Hs. unfold substitute, swap_namespace.
  rewrite (replace_is_scan generator_line "") by discriminate.
  rewrite (scan_absent generator_line "" nl source) by (reflexivity || exact Hnl).
  rewrite !replace_is_scan by discriminate.
  repeat (apply scan_nonempty; [discriminate |]).
  exact Hs.
Qed.

End Truncation.

(** ** Claims about the content rewrite *)

(** C1 (as the code has it).  For every supported locale, the namespace
    step leaves every locale-qualified token [z.string.<locale>.] qualified
    and turns every unqualified token [z.string.] into the qualified one,
    whatever text stands before and after; no unqualified token is left in
    the result, and a second application changes nothing.  The net effect
    is that all tokens end up qualified, not that the two forms change
    places.  On the sample content the generator line goes,
    [z.string.hello] becomes [z.string.de.hello], [z.string.de.world]
    stays, and the text from the last newline on is cut. *)
Theorem C1_namespace_step_qualifies (locale a b : string) :
  Py.mem locale SUPPORTED_LOCALE = true ->
  swap_namespace locale (a +:+ zstrl locale +:+ b)
  = swap_namespace locale a +:+ zstrl locale +:+ swap_namespace locale b
  /\ (String.prefix (locale +:+ ".") b = false ->
      swap_namespace locale (a +:+ zstr +:+ b)
      = swap_namespace locale a +:+ zstrl locale +:+ swap_namespace locale b)
  /\ (forall u v, swap_namespace locale a = u +:+ zstr +:+ v ->
                  String.prefix (locale +:+ ".") v = true)
  /\ swap_namespace locale (swap_namespace locale a) = swap_namespace locale a
  /\ rewrite_content "de" example_source
     = "z.string.de.hello = 1" +:+ str nl +:+ "z.string.de.world = 2".
Proof.
  intros Hsup. pose proof (supported_no_z _ Hsup) as Hz.
  split; [apply swap_qualified, Hz |].
  split; [intros Hb; apply swap_unqualified; assumption |].
  split; [intros u v; apply swap_no_bare_token, Hz |].
  split; [apply swap_idempotent |].
  vm_compute. reflexivity.
Qed.

Lemma C1_namespace_step_qualifies_witness :
  Py.mem "de" SUPPORTED_LOCALE = true
  /\ String.prefix ("de" +:+ ".") "world" = false
  /\ swap_namespace "de" "z.string.x = " = "" +:+ zstr +:+ "de.x = "
  /\ swap_namespace "de" ("z.string.x = " +:+ zstrl "de" +:+ "world")
     = swap_namespace "de" "z.string.x = " +:+ zstrl "de"
       +:+ swap_namespace "de" "world"
  /\ swap_namespace "de" ("z.string.x = " +:+ zstr +:+ "world")
     = swap_namespace "de" "z.string.x = " +:+ zstrl "de"
       +:+ swap_namespace "de" "world"
  /\ String.prefix ("de" +:+ ".") "de.x = " = true.
Proof.
  assert (Py.mem "de" SUPPORTED_LOCALE = true) as Hsup by reflexivity.
  assert (String.prefix ("de" +:+ ".") "world" = false) as Hb by reflexivity.
  assert (swap_namespace "de" "z.string.x = " = "" +:+ zstr +:+ "de.x = ")
    as Hout by reflexivity.
  destruct (C1_namespace_step_qualifies "de" "z.string.x = " "world" Hsup)
    as (Hq & Hu & Hbare & _ & _).
  split; [exact Hsup |]. split; [exact Hb |]. split; [exact Hout |].
  split; [exact Hq |]. split; [exact (Hu Hb) | exact (Hbare _ _ Hout)].
Defined.

(** C1 as stated fails: on the sample content with locale [de] the
    qualified token of [z.string.de.world] is still qualified in what is
    written back. *)
Lemma C1_full_swap_fails :
  Py.mem "de" SUPPORTED_LOCALE = true
  /\ rewrite_content "de" example_source
     <> "z.string.de.hello = 1" +:+ str nl +:+ "z.string.world = 2"
  /\ swap_namespace "de" "z.string.de.world" = "z.string.de.world".
Proof. split; [reflexivity |]. split; [vm_compute; discriminate | reflexivity]. Qed.

(** C8.  The namespace step is not an involution: for the supported locale
    [de], applying the two chained replacements twice to [z.string.hello]
    does not give [z.string.hello] back. *)
Theorem C8_swap_not_involution :
  exists locale source,
    Py.mem locale SUPPORTED_LOCALE = true
    /\ swap_namespace locale (swap_namespace locale source) <> source.
Proof.
  exists "de", "z.string.hello". split; [reflexivity |].
  vm_compute. discriminate.
Qed.

(** C10.  When the text left by the substitutions holds no newline,
    [rfind] gives -1 and the slice drops the last character: what is written
    back is that text without its last character.  So a non-empty content
    without any newline, under a supported locale, is written back as its
    substituted text minus the final character (for [abc]: [ab]), and an
    empty content stays empty. *)
Theorem C10_truncate_without_newline (locale source : string) :
  (has_char nl (substitute locale source) = false ->
   Py.rfind nl (substitute locale source) = -1
   /\ rewrite_content locale source = drop_last (substitute locale source))
  /\ (Py.mem locale SUPPORTED_LOCALE = true ->
      has_char nl source = false -> source <> "" ->
      (exists c, substitute locale source = rewrite_content locale source +:+ str c)
      /\ String.length (substitute locale source)
         = S (String.length (rewrite_content locale source)))
  /\ rewrite_content locale "" = ""
  /\ rewrite_content "de" "abc" = "ab".
Proof.
  split; [| split; [| split]].
  - intros H. split; [apply rfind_absent, H | apply truncate_without_newline, H].
  - intros Hsup Hnl Hne.
    assert (exists c, substitute locale source
                      = rewrite_content locale source +:+ str c) as [c Hc].
    { unfold rewrite_content.
      rewrite truncate_without_newline
        by (apply substitute_without_newline;
            [apply supported_no_nl, Hsup | exact Hnl]).
      apply drop_last_snoc, substitute_nonempty; assumption. }
    split; [exists c; exact Hc |].
    rewrite Hc at 1. rewrite length_app_str. simpl. lia.
  - reflexivity.
  - reflexivity.
Qed.

Lemma C10_truncate_without_newline_witness :
  has_char nl (substitute "de" "a='b'") = false
  /\ Py.mem "de" SUPPORTED_LOCALE = true
  /\ has_char nl "a='b'" = false /\ "a='b'" <> ""
  /\ rewrite_content "de" "a='b'" = drop_last (substitute "de" "a='b'")
  /\ String.length (substitute "de" "a='b'")
     = S (String.length (rewrite_content "de" "a='b'")).
Proof.
  destruct (C10_truncate_without_newline "de" "a='b'") as (H1 & H2 & _).
  split; [reflexivity |]. split; [reflexivity |]. split; [reflexivity |].
  split; [discriminate |].
  split; [apply H1; reflexivity |].
  apply H2; [reflexivity | reflexivity | discriminate].
Defined.

(** ** The loop body *)

Section LoopBody.

Lemma split_nonempty (sep : ascii) (s : string) : Py.split sep s <> [].
Proof.
  destruct s as [|c s]; simpl; [discriminate |].
  destruct (Ascii.eqb c sep); [discriminate |].
  destruct (Py.split sep s); discriminate.
Qed.

(** Joining the components with the separator gives the name back. *)
Lemma split_concat (s : string) : String.concat "-" (Py.split "-" s) = s.
Proof.
  induction s as [|c s IH]; [reflexivity |].
  cbn [Py.split]. destruct (Ascii.eqb c "-") eqn:Hc.
  - apply Ascii.eqb_eq in Hc as ->.
    pose proof (split_nonempty "-" s) as Hne.
    destruct (Py.split "-" s) as [|h t]; [congruence |].
    cbn [String.concat] in *. simpl. f_equal. exact IH.
  - pose proof (split_nonempty "-" s) as Hne.
    destruct (Py.split "-" s) as [|h t]; [congruence |].
    cbn [String.concat] in *. destruct t; simpl; f_equal; exact IH.
Qed.

Lemma split_three (filename p0 p1 p2 : string) :
  Py.split "-" filename = [p0; p1; p2] ->
  filename = p0 +:+ "-" +:+ p1 +:+ "-" +:+ p2.
Proof. intros H. rewrite <- (split_concat filename), H. reflexivity. Qed.

Lemma remove_country_three (filename p0 p1 p2 content : string) (w : world) :
  Py.split "-" filename = [p0; p1; p2] ->
  files w !! path_of filename = Some content ->
  remove_country filename w
  = Ok (World (<[path_of (p0 +:+ "-" +:+ p1 +:+ ".coffee") := content]>
                 (delete (path_of filename) (files w)))
              (stdout w)).
Proof.
  intros Hsplit Hfile. unfold remove_country, shutil_move.
  rewrite Hsplit, Hfile. reflexivity.
Qed.

Lemma remove_country_other (filename : string) (w : world) :
  length (Py.split "-" filename) <> 3%nat -> remove_country filename w = Ok w.
Proof.
  intros Hlen. unfold remove_country.
  destruct (Py.split "-" filename) as [|p0 [|p1 [|p2 [|p3 l]]]];
    try reflexivity.
  simpl in Hlen. congruence.
Qed.

Lemma get_locale_length (filename locale : string) :
  get_locale filename = Some locale -> String.length locale = 2%nat.
Proof.
  unfold get_locale, Py.len.
  destruct (Nat.eqb_spec
    (String.length (Py.replace ".coffee" "" (Py.replace "strings-" "" filename))) 2)
    as [Hlen|]; [| discriminate].
  intros [= <-]. exact Hlen.
Qed.

Lemma world_eta (w : world) : World (files w) (stdout w) = w.
Proof. destruct w; reflexivity. Qed.

(** The deletion branch, for an entry the renaming step left alone. *)
Lemma loop_body_unsupported (filename locale content : string) (w : world) :
  get_locale filename = Some locale ->
  Py.mem locale SUPPORTED_LOCALE = false ->
  length (Py.split "-" filename) <> 3%nat ->
  files w !! path_of filename = Some content ->
  loop_body filename w
  = Ok (World (delete (path_of filename) (files w))
              (stdout w +:+ removal_message locale (path_of filename))).
Proof.
  intros Hloc Hsup Hlen Hfile. unfold loop_body.
  rewrite (remove_country_other _ _ Hlen). cbn [mbind result_bind].
  unfold process. rewrite Hloc, Hsup. cbn [negb].
  unfold os_remove, stdout_write. cbn [files stdout]. rewrite Hfile.
  reflexivity.
Qed.

(** The rewriting branch, for an entry the renaming step left alone. *)
Lemma loop_body_supported (filename locale content : string) (w : world) :
  get_locale filename = Some locale ->
  Py.mem locale SUPPORTED_LOCALE = true ->
  length (Py.split "-" filename) <> 3%nat ->
  files w !! path_of filename = Some content ->
  loop_body filename w
  = Ok (World (<[path_of filename := rewrite_content locale content]> (files w))
              (stdout w)).
Proof.
  intros Hloc Hsup Hlen Hfile. unfold loop_body.
  rewrite (remove_country_other _ _ Hlen). cbn [mbind result_bind].
  unfold process. rewrite Hloc, Hsup. cbn [negb].
  unfold read_file. rewrite Hfile. reflexivity.
Qed.

(** An entry without a locale is only subject to the renaming step. *)
Lemma loop_body_no_locale (filename : string) (w : world) :
  get_locale filename = None -> loop_body filename w = remove_country filename w.
Proof.
  intros Hloc. unfold loop_body.
  destruct (remove_country filename w) as [w'|e w']; cbn [mbind result_bind];
    [| reflexivity].
  unfold process. rewrite Hloc. reflexivity.
Qed.

Lemma split_no_sep (u : string) :
  has_char "-" u = false -> Py.split "-" u = [u].
Proof.
  induction u as [|c u IH]; intros H; [reflexivity |].
  simpl in H. apply orb_false_iff in H as [Hc Hu].
  cbn [Py.split]. rewrite Hc, (IH Hu). reflexivity.
Qed.

Lemma split_app (u r : string) :
  has_char "-" u = false ->
  Py.split "-" (u +:+ "-" +:+ r) = u :: Py.split "-" r.
Proof.
  induction u as [|c u IH]; intros H; [reflexivity |].
  simpl in H. apply orb_false_iff in H as [Hc Hu].
  change (String c u +:+ "-" +:+ r) with (String c (u +:+ "-" +:+ r)).
  cbn [Py.split]. rewrite Hc, (IH Hu). reflexivity.
Qed.

Lemma plain_code_chars (s : string) :
  plain_code s = true ->
  has_char "-" s = false /\ has_char "." s = false /\ has_char "s" s = false.
Proof.
  unfold plain_code. intros H.
  apply andb_true_iff in H as [H Hs]. apply andb_true_iff in H as [Hd Hp].
  apply negb_true_iff in Hs, Hd, Hp. auto.
Qed.

Lemma country_file_split (locale country : string) :
  plain_code locale = true -> plain_code country = true ->
  Py.split "-" (country_file locale country)
  = ["strings"; locale; country +:+ ".coffee"].
Proof.
  intros Hl Hc.
  apply plain_code_chars in Hl as (Hl & _ & _).
  apply plain_code_chars in Hc as (Hc & _ & _).
  unfold country_file.
  change ("strings-" +:+ locale +:+ "-" +:+ country +:+ ".coffee")
    with ("strings" +:+ "-" +:+ locale +:+ "-" +:+ country +:+ ".coffee").
  rewrite split_app by reflexivity. rewrite split_app by exact Hl.
  rewrite split_no_sep; [reflexivity |].
  rewrite has_char_app, Hc. reflexivity.
Qed.

Lemma strip_strings_prefix (rest : string) :
  has_char "s" rest = false -> Py.replace "strings-" "" ("strings-" +:+ rest) = rest.
Proof.
  intros Hs. rewrite replace_is_scan by discriminate.
  rewrite scan_hit by discriminate.
  rewrite <- (app_empty_r rest) at 1.
  rewrite (scan_copy _ _ "s" "trings-") by (reflexivity || exact Hs).
  simpl. apply app_empty_r.
Qed.

Lemma strip_coffee_suffix (stem : string) :
  has_char "." stem = false -> Py.replace ".coffee" "" (stem +:+ ".coffee") = stem.
Proof.
  intros Hs. rewrite replace_is_scan by discriminate.
  rewrite (scan_copy _ _ "." "coffee") by (reflexivity || exact Hs).
  rewrite <- (app_empty_r ".coffee").
  rewrite scan_hit by discriminate. simpl. apply app_empty_r.
Qed.

Lemma get_locale_locale_file (locale : string) :
  plain_code locale = true -> String.length locale = 2%nat ->
  get_locale (locale_file locale) = Some locale.
Proof.
  intros Hl Hlen. apply plain_code_chars in Hl as (_ & Hp & Hs).
  unfold get_locale, locale_file.
  rewrite strip_strings_prefix by (rewrite has_char_app, Hs; reflexivity).
  rewrite strip_coffee_suffix by exact Hp.
  unfold Py.len. rewrite Hlen. reflexivity.
Qed.

Lemma get_locale_country_file (locale country : string) :
  plain_code locale = true -> plain_code country = true ->
  String.length locale = 2%nat ->
  get_locale (country_file locale country) = None.
Proof.
  intros Hl Hc Hlen.
  apply plain_code_chars in Hl as (_ & Hlp & Hls).
  apply plain_code_chars in Hc as (_ & Hcp & Hcs).
  unfold get_locale, country_file.
  rewrite strip_strings_prefix
    by (rewrite !has_char_app, Hls, Hcs; reflexivity).
  change (locale +:+ "-" +:+ country +:+ ".coffee")
    with (locale +:+ "-" +:+ (country +:+ ".coffee")).
  rewrite <- !app_assoc_str.
  rewrite strip_coffee_suffix
    by (rewrite !has_char_app, Hlp, Hcp; reflexivity).
  unfold Py.len. rewrite !length_app_str, Hlen. reflexivity.
Qed.

Lemma run_loop_step (filename : string) (rest : list string) (w w' : world) :
  loop_body filename w = Ok w' ->
  run_loop (filename :: rest) w = run_loop rest w'.
Proof. intros H. cbn [run_loop]. rewrite H. reflexivity. Qed.

Lemma run_loop_app (before after : list string) (w : world) :
  run_loop (before ++ after) w = (w1 ← run_loop before w; run_loop after w1).
Proof.
  revert w. induction before as [|g before IH]; intros w; [reflexivity |].
  cbn [app run_loop]. destruct (loop_body g w) as [w1|e w1];
    cbn [mbind result_bind]; [apply IH | reflexivity].
Qed.

Lemma path_of_inj (f g : string) : path_of f = path_of g -> f = g.
Proof. unfold path_of. apply (inj (String.append root)). Qed.

(** An iteration takes away no file but the one of its own entry. *)
Lemma loop_body_keeps_others (g p : string) (w w' : world) :
  loop_body g w = Ok w' -> p <> path_of g ->
  is_Some (files w !! p) -> is_Some (files w' !! p).
Proof.
  unfold loop_body. intros Hbody Hp Hin.
  destruct (remove_country g w) as [w1|e w1] eqn:Hrc;
    cbn [mbind result_bind] in Hbody; [| discriminate].
  assert (is_Some (files w1 !! p)) as Hin1.
  { unfold remove_country in Hrc.
    destruct (Py.split "-" g) as [|p0 [|p1 [|p2 [|p3 l]]]];
      try (injection Hrc as <-; exact Hin).
    unfold shutil_move in Hrc.
    destruct (files w !! path_of g) as [content|]; [| discriminate].
    injection Hrc as <-. cbn [files].
    rewrite lookup_insert. case_decide; [eauto |].
    rewrite lookup_delete_ne by congruence. exact Hin. }
  unfold process in Hbody.
  destruct (get_locale g) as [locale|]; [| injection Hbody as <-; exact Hin1].
  destruct (negb (Py.mem locale SUPPORTED_LOCALE)).
  - unfold os_remove, stdout_write in Hbody. cbn [files stdout] in Hbody.
    destruct (files w1 !! path_of g); [| discriminate].
    injection Hbody as <-. cbn [files].
    rewrite lookup_delete_ne by congruence. exact Hin1.
  - unfold read_file in Hbody.
    destruct (files w1 !! path_of g); cbn [mbind result_bind] in Hbody;
      [| discriminate].
    injection Hbody as <-. unfold write_file. cbn [files].
    rewrite lookup_insert_ne by congruence. exact Hin1.
Qed.

(** An entry of a listing without repetitions is still there when its turn
    comes, whatever the entries before it were. *)
Lemma listed_entry_present (before : list string) (f : string) (w w1 : world) :
  f ∉ before -> is_Some (files w !! path_of f) ->
  run_loop before w = Ok w1 -> is_Some (files w1 !! path_of f).
Proof.
  revert w. induction before as [|g before IH]; intros w Hnotin Hin Hrun.
  - injection Hrun as <-. exact Hin.
  - cbn [run_loop] in Hrun.
    destruct (loop_body g w) as [w0|e w0] eqn:Hbody;
      cbn [mbind result_bind] in Hrun; [| discriminate].
    apply not_elem_of_cons in Hnotin as [Hfg Hnotin].
    apply (IH w0); [exact Hnotin | | exact Hrun].
    apply (loop_body_keeps_others g _ w); [exact Hbody | | exact Hin].
    intros Heq. apply path_of_inj in Heq. congruence.
Qed.

End LoopBody.

(** ** Claims about file names, deletion and rewriting *)

(** C3 (as the code has it).  A name that splits on the dash into exactly
    three components [p0], [p1], [p2] is renamed to [p0-p1.coffee]: the
    third component (the country together with whatever extension the file
    had) is dropped and the fixed extension [.coffee] is put in its place.
    So [strings-de-CH.coffee] becomes [strings-de.coffee]; a name of two
    components is not renamed. *)
Theorem C3_remove_country_renames (filename : string) (w : world) :
  (forall p0 p1 p2 content,
     Py.split "-" filename = [p0; p1; p2] ->
     files w !! path_of filename = Some content ->
     filename = p0 +:+ "-" +:+ p1 +:+ "-" +:+ p2
     /\ remove_country filename w
        = Ok (World (<[path_of (p0 +:+ "-" +:+ p1 +:+ ".coffee") := content]>
                       (delete (path_of filename) (files w)))
                    (stdout w)))
  /\ (length (Py.split "-" filename) = 2%nat -> remove_country filename w = Ok w)
  /\ remove_country "strings-de-CH.coffee" (dir_single "strings-de-CH.coffee" "x")
     = Ok (dir_single "strings-de.coffee" "x").
Proof.
  split; [| split].
  - intros p0 p1 p2 content Hsplit Hfile. split.
    + apply split_three, Hsplit.
    + apply (remove_country_three _ _ _ p2); assumption.
  - intros Hlen. apply remove_country_other. rewrite Hlen. discriminate.
  - vm_compute. reflexivity.
Qed.

Lemma C3_remove_country_renames_witness :
  Py.split "-" "strings-pt-BR.coffee" = ["strings"; "pt"; "BR.coffee"]
  /\ files (dir_single "strings-pt-BR.coffee" "x") !! path_of "strings-pt-BR.coffee"
     = Some "x"
  /\ length (Py.split "-" "strings-de.coffee") = 2%nat
  /\ remove_country "strings-pt-BR.coffee" (dir_single "strings-pt-BR.coffee" "x")
     = Ok (World (<[path_of "strings-pt.coffee" := "x"]>
                    (delete (path_of "strings-pt-BR.coffee")
                            (files (dir_single "strings-pt-BR.coffee" "x"))))
                 "")
  /\ remove_country "strings-de.coffee" (dir_single "strings-de.coffee" "x")
     = Ok (dir_single "strings-de.coffee" "x").
Proof.
  assert (Py.split "-" "strings-pt-BR.coffee" = ["strings"; "pt"; "BR.coffee"])
    as Hsplit by reflexivity.
  assert (files (dir_single "strings-pt-BR.coffee" "x")
            !! path_of "strings-pt-BR.coffee" = Some "x")
    as Hfile by (vm_compute; reflexivity).
  assert (length (Py.split "-" "strings-de.coffee") = 2%nat) as Hlen
    by reflexivity.
  destruct (C3_remove_country_renames "strings-pt-BR.coffee"
              (dir_single "strings-pt-BR.coffee" "x")) as (Hthree & _ & _).
  destruct (C3_remove_country_renames "strings-de.coffee"
              (dir_single "strings-de.coffee" "x")) as (_ & Htwo & _).
  destruct (Hthree "strings" "pt" "BR.coffee" "x" Hsplit Hfile) as [_ Hmove].
  split; [exact Hsplit |]. split; [exact Hfile |]. split; [exact Hlen |].
  split; [exact Hmove | exact (Htwo Hlen)].
Defined.

(** C3 as stated fails: the extension is not kept.  [strings-de-CH.json]
    splits into three components and is renamed to [strings-de.coffee], not
    to [strings-de.json]. *)
Lemma C3_extension_not_kept :
  Py.split "-" "strings-de-CH.json" = ["strings"; "de"; "CH.json"]
  /\ remove_country "strings-de-CH.json" (dir_single "strings-de-CH.json" "x")
     = Ok (dir_single "strings-de.coffee" "x")
  /\ files (dir_single "strings-de.coffee" "x") !! path_of "strings-de.json" = None
  /\ files (dir_single "strings-de.coffee" "x") !! path_of "strings-de.coffee"
     = Some "x".
Proof.
  split; [reflexivity |]. split; [vm_compute; reflexivity |].
  split; vm_compute; reflexivity.
Qed.

(** C2 (as the code has it).  The locale of a directory entry is derived
    from the name as listed, not from the name the renaming step gave the
    file: the loop body is the renaming step followed by the processing of
    the listed name.  A file [strings-<l>-<c>.coffee] (two-character locale
    [l], country [c]) is therefore renamed to [strings-<l>.coffee] and left
    at that: no locale is derived for it ([l-c] is not two characters), its
    content is untouched and nothing is printed in that iteration, although
    the name it now bears would give the locale [l].  In particular for
    [strings-de-CH.coffee]. *)
Theorem C2_locale_from_listed_name (w : world) :
  (forall filename w',
     remove_country filename w = Ok w' ->
     loop_body filename w = process filename w')
  /\ (forall locale country content,
        plain_code locale = true -> plain_code country = true ->
        String.length locale = 2%nat ->
        files w !! path_of (country_file locale country) = Some content ->
        get_locale (country_file locale country) = None
        /\ get_locale (locale_file locale) = Some locale
        /\ loop_body (country_file locale country) w
           = Ok (World (<[path_of (locale_file locale) := content]>
                          (delete (path_of (country_file locale country)) (files w)))
                       (stdout w)))
  /\ country_file "de" "CH" = "strings-de-CH.coffee"
  /\ locale_file "de" = "strings-de.coffee".
Proof.
  split; [| split; [| split; reflexivity]].
  - intros filename w' H. unfold loop_body. rewrite H. reflexivity.
  - intros locale country content Hl Hc Hlen Hfile.
    pose proof (get_locale_country_file _ _ Hl Hc Hlen) as Hnone.
    split; [exact Hnone |]. split; [apply get_locale_locale_file; assumption |].
    rewrite (loop_body_no_locale _ _ Hnone).
    apply (remove_country_three _ "strings" locale (country +:+ ".coffee"));
      [apply country_file_split; assumption | exact Hfile].
Qed.

Lemma C2_locale_from_listed_name_witness :
  remove_country "strings-de.coffee" (dir_single "strings-de.coffee" "x")
  = Ok (dir_single "strings-de.coffee" "x")
  /\ plain_code "de" = true /\ plain_code "CH" = true
  /\ String.length "de" = 2%nat
  /\ files (dir_single "strings-de-CH.coffee" example_source)
       !! path_of (country_file "de" "CH") = Some example_source
  /\ loop_body "strings-de.coffee" (dir_single "strings-de.coffee" "x")
     = process "strings-de.coffee" (dir_single "strings-de.coffee" "x")
  /\ loop_body (country_file "de" "CH") (dir_single "strings-de-CH.coffee" example_source)
     = Ok (World (<[path_of (locale_file "de") := example_source]>
                    (delete (path_of (country_file "de" "CH"))
                            (files (dir_single "strings-de-CH.coffee" example_source))))
                 (stdout (dir_single "strings-de-CH.coffee" example_source))).
Proof.
  assert (remove_country "strings-de.coffee" (dir_single "strings-de.coffee" "x")
          = Ok (dir_single "strings-de.coffee" "x")) as Hkeep
    by (vm_compute; reflexivity).
  assert (files (dir_single "strings-de-CH.coffee" example_source)
            !! path_of (country_file "de" "CH") = Some example_source) as Hfile
    by (vm_compute; reflexivity).
  destruct (C2_locale_from_listed_name (dir_single "strings-de.coffee" "x"))
    as (Hlisted & _).
  destruct (C2_locale_from_listed_name
              (dir_single "strings-de-CH.coffee" example_source))
    as (_ & Hcountry & _).
  destruct (Hcountry "de" "CH" example_source eq_refl eq_refl eq_refl Hfile)
    as (_ & _ & Hbody).
  split; [exact Hkeep |]. split; [reflexivity |]. split; [reflexivity |].
  split; [reflexivity |]. split; [exact Hfile |].
  split; [exact (Hlisted _ _ Hkeep) | exact Hbody].
Defined.

(** C2 as stated fails: the directory holds [strings-de-CH.coffee] only;
    after the pass the file is called [strings-de.coffee] and holds the
    content it had, not the rewritten one, because the locale derived for
    the entry is none, not [de]. *)
Lemma C2_renamed_file_not_processed :
  listdir (files (dir_single "strings-de-CH.coffee" example_source))
  = ["strings-de-CH.coffee"]
  /\ get_locale "strings-de-CH.coffee" = None
  /\ run_loop ["strings-de-CH.coffee"] (dir_single "strings-de-CH.coffee" example_source)
     = Ok (dir_single "strings-de.coffee" example_source)
  /\ rewrite_content "de" example_source <> example_source.
Proof.
  split; [vm_compute; reflexivity |]. split; [reflexivity |].
  split; [vm_compute; reflexivity |]. vm_compute. discriminate.
Qed.

(** C4 (as the code has it).  For every file whose name does not split into
    exactly three components (so the renaming step leaves it alone) and
    whose locale, derived from that name, is two characters long but not
    supported: the file is deleted, all other files are as they were,
    exactly one line [Removing unsupported locale "<locale>" (<path>)] is
    added to the standard output, and the loop goes on with the next
    entry.  In a run over a listing without repetitions such a file is
    still there when its turn comes. *)
Theorem C4_unsupported_locale_deleted (filename locale : string) :
  get_locale filename = Some locale ->
  Py.mem locale SUPPORTED_LOCALE = false ->
  length (Py.split "-" filename) <> 3%nat ->
  String.length locale = 2%nat
  /\ (forall content rest w,
        files w !! path_of filename = Some content ->
        loop_body filename w
        = Ok (World (delete (path_of filename) (files w))
                    (stdout w +:+ "Removing unsupported locale " +:+ str dquote
                     +:+ locale +:+ str dquote +:+ " (" +:+ root +:+ filename
                     +:+ ")" +:+ str nl))
        /\ run_loop (filename :: rest) w
           = run_loop rest
               (World (delete (path_of filename) (files w))
                      (stdout w +:+ removal_message locale (path_of filename))))
  /\ (forall before after w w1,
        filename ∉ before -> is_Some (files w !! path_of filename) ->
        run_loop before w = Ok w1 ->
        run_loop (before ++ filename :: after) w
        = run_loop after
            (World (delete (path_of filename) (files w1))
                   (stdout w1 +:+ removal_message locale (path_of filename)))).
Proof.
  intros Hloc Hsup Hlen.
  split; [eapply get_locale_length; eassumption |]. split.
  - intros content rest w Hfile.
    pose proof (loop_body_unsupported _ _ _ _ Hloc Hsup Hlen Hfile) as Hbody.
    split; [exact Hbody | apply run_loop_step, Hbody].
  - intros before after w w1 Hnotin Hin Hrun.
    destruct (listed_entry_present _ _ _ _ Hnotin Hin Hrun) as [content Hfile].
    rewrite run_loop_app, Hrun. cbn [mbind result_bind].
    apply run_loop_step.
    apply (loop_body_unsupported _ _ content); assumption.
Qed.

Lemma C4_unsupported_locale_deleted_witness :
  get_locale "strings-fr.coffee" = Some "fr"
  /\ Py.mem "fr" SUPPORTED_LOCALE = false
  /\ length (Py.split "-" "strings-fr.coffee") <> 3%nat
  /\ files dir_fr_de !! path_of "strings-fr.coffee"
     = Some ("z.string.bonjour = 1" +:+ str nl)
  /\ run_loop ["strings-fr.coffee"; "strings-de.coffee"] dir_fr_de
     = run_loop ["strings-de.coffee"]
         (World (delete (path_of "strings-fr.coffee") (files dir_fr_de))
                (stdout dir_fr_de
                 +:+ removal_message "fr" (path_of "strings-fr.coffee"))).
Proof.
  assert (get_locale "strings-fr.coffee" = Some "fr") as Hloc by reflexivity.
  assert (Py.mem "fr" SUPPORTED_LOCALE = false) as Hsup by reflexivity.
  assert (length (Py.split "-" "strings-fr.coffee") <> 3%nat) as Hlen
    by (vm_compute; discriminate).
  assert (files dir_fr_de !! path_of "strings-fr.coffee"
          = Some ("z.string.bonjour = 1" +:+ str nl)) as Hfile
    by (vm_compute; reflexivity).
  destruct (C4_unsupported_locale_deleted "strings-fr.coffee" "fr" Hloc Hsup Hlen)
    as (_ & Hstep & _).
  destruct (Hstep _ ["strings-de.coffee"] dir_fr_de Hfile) as [_ Hrun].
  split; [exact Hloc |]. split; [exact Hsup |]. split; [exact Hlen |].
  split; [exact Hfile | exact Hrun].
Defined.

(** C4 as stated fails for a name of three components whose derived locale
    is two characters long: [strings-strings-fr.coffee] gives the locale
    [fr], which is not supported, but the renaming step has already moved
    the file to [strings-strings.coffee]; the line is printed, then
    [os.remove] raises on the stale path: the file is not deleted and the
    loop does not go on. *)
Lemma C4_renamed_entry_not_deleted :
  get_locale "strings-strings-fr.coffee" = Some "fr"
  /\ Py.mem "fr" SUPPORTED_LOCALE = false
  /\ files (dir_single "strings-strings-fr.coffee" "x")
       !! path_of "strings-strings-fr.coffee" = Some "x"
  /\ run_loop ["strings-strings-fr.coffee"; "strings-strings.coffee"]
       (dir_single "strings-strings-fr.coffee" "x")
     = Raise (FileNotFoundError (path_of "strings-strings-fr.coffee"))
         (World {[ path_of "strings-strings.coffee" := "x" ]}
                (removal_message "fr" (path_of "strings-strings-fr.coffee"))).
Proof.
  split; [reflexivity |]. split; [reflexivity |].
  split; vm_compute; reflexivity.
Qed.

(** C5 (as the code has it).  For every file whose name does not split
    into exactly three components and whose locale, derived from that name,
    is supported: the file stays under its name with its content rewritten
    in place, the set of files is unchanged, every other file keeps its
    content, and nothing is added to the standard output.  In a run over a
    listing without repetitions such a file is still there when its turn
    comes. *)
Theorem C5_supported_locale_rewritten (filename locale : string) :
  get_locale filename = Some locale ->
  Py.mem locale SUPPORTED_LOCALE = true ->
  length (Py.split "-" filename) <> 3%nat ->
  (forall content w,
     files w !! path_of filename = Some content ->
     exists w',
       loop_body filename w = Ok w'
       /\ files w' !! path_of filename = Some (rewrite_content locale content)
       /\ (forall p, p <> path_of filename -> files w' !! p = files w !! p)
       /\ dom (files w') = dom (files w)
       /\ stdout w' = stdout w)
  /\ (forall before after w w1,
        filename ∉ before -> is_Some (files w !! path_of filename) ->
        run_loop before w = Ok w1 ->
        exists content,
          files w1 !! path_of filename = Some content
          /\ run_loop (before ++ filename :: after) w
             = run_loop after
                 (World (<[path_of filename := rewrite_content locale content]>
                           (files w1))
                        (stdout w1))).
Proof.
  intros Hloc Hsup Hlen. split.
  - intros content w Hfile.
    eexists. split; [apply (loop_body_supported _ _ _ _ Hloc Hsup Hlen Hfile) |].
    cbn [files stdout]. split; [apply lookup_insert_eq |].
    split; [intros p Hp; apply lookup_insert_ne; congruence |].
    split; [| reflexivity].
    apply dom_insert_lookup_L. rewrite Hfile. eauto.
  - intros before after w w1 Hnotin Hin Hrun.
    destruct (listed_entry_present _ _ _ _ Hnotin Hin Hrun) as [content Hfile].
    exists content. split; [exact Hfile |].
    rewrite run_loop_app, Hrun. cbn [mbind result_bind].
    apply run_loop_step.
    apply (loop_body_supported _ _ content); assumption.
Qed.

Lemma C5_supported_locale_rewritten_witness :
  get_locale "strings-de.coffee" = Some "de"
  /\ Py.mem "de" SUPPORTED_LOCALE = true
  /\ length (Py.split "-" "strings-de.coffee") <> 3%nat
  /\ files dir_fr_de !! path_of "strings-de.coffee" = Some example_source
  /\ exists w',
      loop_body "strings-de.coffee" dir_fr_de = Ok w'
      /\ files w' !! path_of "strings-de.coffee"
         = Some (rewrite_content "de" example_source)
      /\ (forall p, p <> path_of "strings-de.coffee" ->
                    files w' !! p = files dir_fr_de !! p)
      /\ dom (files w') = dom (files dir_fr_de)
      /\ stdout w' = stdout dir_fr_de.
Proof.
  assert (get_locale "strings-de.coffee" = Some "de") as Hloc by reflexivity.
  assert (Py.mem "de" SUPPORTED_LOCALE = true) as Hsup by reflexivity.
  assert (length (Py.split "-" "strings-de.coffee") <> 3%nat) as Hlen
    by (vm_compute; discriminate).
  assert (files dir_fr_de !! path_of "strings-de.coffee" = Some example_source)
    as Hfile by (vm_compute; reflexivity).
  destruct (C5_supported_locale_rewritten "strings-de.coffee" "de" Hloc Hsup Hlen)
    as [Hstep _].
  split; [exact Hloc |]. split; [exact Hsup |]. split; [exact Hlen |].
  split; [exact Hfile | exact (Hstep example_source dir_fr_de Hfile)].
Defined.

(** C5 as stated fails for a name of three components whose derived locale
    is supported: [strings-strings-de.coffee] gives the locale [de], but
    the file has been renamed to [strings-strings.coffee] before; opening
    the stale path raises, and the content is not rewritten. *)
Lemma C5_renamed_entry_not_rewritten :
  get_locale "strings-strings-de.coffee" = Some "de"
  /\ Py.mem "de" SUPPORTED_LOCALE = true
  /\ files (dir_single "strings-strings-de.coffee" example_source)
       !! path_of "strings-strings-de.coffee" = Some example_source
  /\ loop_body "strings-strings-de.coffee"
       (dir_single "strings-strings-de.coffee" example_source)
     = Raise (FileNotFoundError (path_of "strings-strings-de.coffee"))
         (dir_single "strings-strings.coffee" example_source).
Proof.
  split; [reflexivity |]. split; [reflexivity |].
  split; vm_compute; reflexivity.
Qed.




(** C9 (as the code has it).  Locale derivation deletes the substrings
    [strings-] and [.coffee] wherever they occur: around any occurrence, the
    text before and the text after are treated independently.  So a name
    outside the pattern can reduce to two characters ([ab] gives [ab],
    [xstrings-y.coffee] gives [xy]), and every entry whose name reduces to
    two unsupported characters and does not split into exactly three
    components is treated as locale-bearing and deleted. *)
Theorem C9_locale_derivation_unanchored (a b filename : string) (w : world) :
  Py.replace "strings-" "" (a +:+ "strings-" +:+ b)
  = Py.replace "strings-" "" a +:+ Py.replace "strings-" "" b
  /\ Py.replace ".coffee" "" (a +:+ ".coffee" +:+ b)
     = Py.replace ".coffee" "" a +:+ Py.replace ".coffee" "" b
  /\ get_locale "ab" = Some "ab"
  /\ get_locale "xstrings-y.coffee" = Some "xy"
  /\ (let reduced := Py.replace ".coffee" "" (Py.replace "strings-" "" filename) in
      String.length reduced = 2%nat ->
      get_locale filename = Some reduced
      /\ (Py.mem reduced SUPPORTED_LOCALE = false ->
          length (Py.split "-" filename) <> 3%nat ->
          forall content, files w !! path_of filename = Some content ->
          loop_body filename w
          = Ok (World (delete (path_of filename) (files w))
                      (stdout w +:+ removal_message reduced (path_of filename))))).
Proof.
  split; [| split; [| split; [| split]]].
  - rewrite !replace_is_scan by discriminate.
    apply (scan_occurrence "strings-" ""); [discriminate | reflexivity].
  - rewrite !replace_is_scan by discriminate.
    apply (scan_occurrence ".coffee" ""); [discriminate | reflexivity].
  - reflexivity.
  - reflexivity.
  - intros reduced Hlen.
    assert (get_locale filename = Some reduced) as Hloc.
    { unfold get_locale, Py.len. fold reduced. rewrite Hlen. reflexivity. }
    split; [exact Hloc |].
    intros Hsup Hsplit content Hfile.
    apply (loop_body_unsupported _ _ content); assumption.
Qed.

Lemma C9_locale_derivation_unanchored_witness :
  String.length (Py.replace ".coffee" "" (Py.replace "strings-" "" "ab")) = 2%nat
  /\ Py.mem "ab" SUPPORTED_LOCALE = false
  /\ length (Py.split "-" "ab") <> 3%nat
  /\ files (dir_single "ab" "x") !! path_of "ab" = Some "x"
  /\ loop_body "ab" (dir_single "ab" "x")
     = Ok (World (delete (path_of "ab") (files (dir_single "ab" "x")))
                 (stdout (dir_single "ab" "x")
                  +:+ removal_message "ab" (path_of "ab"))).
Proof.
  assert (String.length (Py.replace ".coffee" "" (Py.replace "strings-" "" "ab"))
          = 2%nat) as Hlen by reflexivity.
  assert (Py.mem "ab" SUPPORTED_LOCALE = false) as Hsup by reflexivity.
  assert (length (Py.split "-" "ab") <> 3%nat) as Hsplit
    by (vm_compute; discriminate).
  assert (files (dir_single "ab" "x") !! path_of "ab" = Some "x") as Hfile
    by (vm_compute; reflexivity).
  destruct (C9_locale_derivation_unanchored "" "" "ab" (dir_single "ab" "x"))
    as (_ & _ & _ & _ & Hdel).
  destruct (Hdel Hlen) as [_ Hbody].
  split; [exact Hlen |]. split; [exact Hsup |]. split; [exact Hsplit |].
  split; [exact Hfile | exact (Hbody Hsup Hsplit "x" Hfile)].
Defined.

(** C9 as stated fails for a name that reduces to two characters but
    splits into three components: a file named [--] gives the unsupported
    locale [--]; it has been renamed to [-.coffee] before, so [os.remove]
    raises on the stale path and nothing is deleted. *)
Lemma C9_two_characters_not_deleted :
  String.length (Py.replace ".coffee" "" (Py.replace "strings-" "" "--")) = 2%nat
  /\ get_locale "--" = Some "--"
  /\ Py.mem "--" SUPPORTED_LOCALE = false
  /\ files (dir_single "--" "x") !! path_of "--" = Some "x"
  /\ loop_body "--" (dir_single "--" "x")
     = Raise (FileNotFoundError (path_of "--"))
         (World {[ path_of "-.coffee" := "x" ]}
                (removal_message "--" (path_of "--"))).
Proof.
  split; [reflexivity |]. split; [reflexivity |]. split; [reflexivity |].
  split; vm_compute; reflexivity.
Qed.

(** ** The external commands *)

(** C7 (as the code has it).  The exit status of the two external commands
    is discarded: whatever statuses they return, the run is the same, and
    it goes on to list the directory and to run the loop on what the
    commands left.  With commands that fail and touch nothing, the run is
    the loop on the files as they were. *)
Theorem C7_exit_status_ignored
    (effect : string -> gmap string string -> gmap string string)
    (status1 status2 : string -> gmap string string -> Z)
    (os_listdir : gmap string string -> list string) (w : world) :
  main (fun cmd fs => (status1 cmd fs, effect cmd fs)) os_listdir w
  = main (fun cmd fs => (status2 cmd fs, effect cmd fs)) os_listdir w
  /\ main (fun cmd fs => (status1 cmd fs, effect cmd fs)) os_listdir w
     = run_loop (os_listdir (effect download_cmd (effect upload_cmd (files w))))
         (World (effect download_cmd (effect upload_cmd (files w))) (stdout w))
  /\ main failing_command os_listdir w = run_loop (os_listdir (files w)) w.
Proof.
  split; [reflexivity |]. split; [reflexivity |].
  unfold main, failing_command. rewrite world_eta. reflexivity.
Qed.

(** C7 as stated fails: both external commands fail (status 256), and the
    run still lists the directory, deletes [strings-fr.coffee] with its
    line printed, and rewrites [strings-de.coffee]. *)
Lemma C7_run_continues_after_failure :
  fst (failing_command upload_cmd (files dir_fr_de)) <> 0
  /\ fst (failing_command download_cmd (files dir_fr_de)) <> 0
  /\ listdir (files dir_fr_de) = ["strings-fr.coffee"; "strings-de.coffee"]
  /\ main failing_command listdir dir_fr_de
     = Ok (World {[ path_of "strings-de.coffee" := rewrite_content "de" example_source ]}
                 (removal_message "fr" (path_of "strings-fr.coffee"))).
Proof.
  split; [discriminate |]. split; [discriminate |].
  split; vm_compute; reflexivity.
Qed.

(** ** More about the truncation step *)

Section TruncationMore.

Lemma rfind_last (c : ascii) (a b : string) :
  has_char c b = false ->
  Py.rfind c (a +:+ String c b) = Z.of_nat (String.length a).
Proof.
  intros Hb. induction a as [|x a IH].
  - cbn [String.append Py.rfind String.length].
    rewrite (rfind_absent _ _ Hb), Ascii.eqb_refl. reflexivity.
  - change (String x a +:+ String c b) with (String x (a +:+ String c b)).
    cbn [Py.rfind]. rewrite IH.
    replace (0 <=? Z.of_nat (String.length a)) with true
      by (symmetry; apply Z.leb_le; lia).
    cbn [String.length]. lia.
Qed.

Lemma substring_prefix_app (a r : string) :
  String.substring 0 (String.length a) (a +:+ r) = a.
Proof.
  induction a as [|x a IH]; [destruct r; reflexivity |].
  cbn [String.length String.append String.substring]. f_equal. exact IH.
Qed.

Lemma slice_to_prefix_app (a r : string) :
  Py.slice_to (Z.of_nat (String.length a)) (a +:+ r) = a.
Proof.
  unfold Py.slice_to.
  replace (Z.of_nat (String.length a) <? 0) with false
    by (symmetry; apply Z.ltb_ge; lia).
  rewrite length_app_str.
  replace (Z.to_nat (Z.min (Z.of_nat (String.length a))
                           (Z.of_nat (String.length a + String.length r))))
    with (String.length a) by lia.
  apply substring_prefix_app.
Qed.

Lemma truncate_at_last_newline (a b : string) :
  has_char nl b = false -> truncate (a +:+ String nl b) = a.
Proof.
  intros Hb. unfold truncate. rewrite (rfind_last _ _ _ Hb).
  apply slice_to_prefix_app.
Qed.

(** A text that holds the character [c] splits at its last [c]. *)
Lemma split_at_last (c : ascii) (s : string) :
  has_char c s = true ->
  exists a b, s = a +:+ String c b /\ has_char c b = false.
Proof.
  induction s as [|d s IH]; intros H; [discriminate |].
  destruct (has_char c s) eqn:Hs.
  - destruct (IH eq_refl) as (a & b & -> & Hb).
    exists (String d a), b. split; [reflexivity | exact Hb].
  - simpl in H. rewrite Hs, orb_false_r in H. apply Ascii.eqb_eq in H as ->.
    exists "", s. split; [reflexivity | exact Hs].
Qed.

Lemma truncate_cuts (s : string) :
  exists t, s = truncate s +:+ t /\ (s <> "" -> t <> "").
Proof.
  destruct (has_char nl s) eqn:Hnl.
  - destruct (split_at_last _ _ Hnl) as (a & b & -> & Hb).
    rewrite (truncate_at_last_newline _ _ Hb).
    exists (String nl b). split; [reflexivity | discriminate].
  - rewrite (truncate_without_newline _ Hnl).
    destruct s as [|c s]; [exists ""; split; [reflexivity | congruence] |].
    destruct (drop_last_snoc (String c s)) as [e He]; [discriminate |].
    exists (str e). split; [exact He | discriminate].
Qed.

End TruncationMore.

(** ** More about the substitutions *)

Section SubstitutionsMore.

(** A pattern whose first character the text lacks never matches. *)
Lemma replace_without_head (c : ascii) (o' new s : string) :
  has_char c s = false -> Py.replace (String c o') new s = s.
Proof.
  intros Hs. rewrite replace_is_scan by discriminate.
  rewrite <- (app_empty_r s) at 1.
  rewrite (scan_copy _ _ c o') by (reflexivity || exact Hs).
  apply app_empty_r.
Qed.

Lemma substitute_without_triggers (locale source : string) :
  has_char "#" source = false -> has_char "z" source = false ->
  has_char "=" source = false -> has_char "\" source = false ->
  substitute locale source = source.
Proof.
  intros Hhash Hz Heq Hbs. unfold substitute, swap_namespace.
  change generator_line with (String "#" ("X-Generator: crowdin.com" +:+ str nl)).
  rewrite (replace_without_head "#" ("X-Generator: crowdin.com" +:+ str nl)
             "" source Hhash).
  change (zstrl locale) with (String "z" (".string." +:+ locale +:+ ".")).
  rewrite (replace_without_head "z" (".string." +:+ locale +:+ ".")
             zstr source Hz).
  change zstr with (String "z" ".string.").
  rewrite (replace_without_head "z" ".string."
             (String "z" (".string." +:+ locale +:+ ".")) source Hz).
  change "='" with (String "=" "'").
  rewrite (replace_without_head "=" "'" " = '" source Heq).
  change "\:" with (String "\" ":").
  apply replace_without_head, Hbs.
Qed.

End SubstitutionsMore.

(** ** Further properties of the content rewrite *)

(** X1.  When the text holds a newline, the truncation keeps exactly what
    stands before the last one: whatever follows it, and that newline
    itself, are cut.  A text that ends with a newline loses just that
    newline. *)
Theorem X1_truncate_at_last_newline (a b : string) :
  (has_char nl b = false ->
   Py.rfind nl (a +:+ str nl +:+ b) = Z.of_nat (String.length a)
   /\ truncate (a +:+ str nl +:+ b) = a)
  /\ truncate (a +:+ str nl) = a.
Proof.
  split.
  - intros Hb. split.
    + apply (rfind_last nl a b Hb).
    + apply (truncate_at_last_newline a b Hb).
  - apply (truncate_at_last_newline a ""). reflexivity.
Qed.

Lemma X1_truncate_at_last_newline_witness :
  has_char nl "tail" = false
  /\ Py.rfind nl ("one" +:+ str nl +:+ "two" +:+ str nl +:+ "tail") = 7
  /\ truncate ("one" +:+ str nl +:+ "two" +:+ str nl +:+ "tail")
     = "one" +:+ str nl +:+ "two".
Proof.
  destruct (X1_truncate_at_last_newline ("one" +:+ str nl +:+ "two") "tail")
    as [H _].
  destruct (H eq_refl) as [Hfind Hcut].
  split; [reflexivity |]. split; [exact Hfind | exact Hcut].
Defined.

(** X2.  What is written back is always a prefix of the substituted text,
    and a proper one unless that text is empty: the truncation cuts at
    least one character off the end of what the substitutions give. *)
Theorem X2_rewrite_cuts_the_end (locale source : string) :
  exists cut,
    substitute locale source = rewrite_content locale source +:+ cut
    /\ (substitute locale source <> "" ->
        cut <> ""
        /\ (String.length (rewrite_content locale source)
            < String.length (substitute locale source))%nat).
Proof.
  unfold rewrite_content.
  destruct (truncate_cuts (substitute locale source)) as (cut & Hcut & Hne).
  exists cut. split; [exact Hcut |].
  intros Hs. specialize (Hne Hs). split; [exact Hne |].
  rewrite Hcut at 2. rewrite length_app_str.
  destruct cut; [congruence | simpl; lia].
Qed.

Lemma X2_rewrite_cuts_the_end_witness :
  substitute "de" example_source <> ""
  /\ exists cut,
      substitute "de" example_source = rewrite_content "de" example_source +:+ cut
      /\ cut <> ""
      /\ (String.length (rewrite_content "de" example_source)
          < String.length (substitute "de" example_source))%nat.
Proof.
  assert (substitute "de" example_source <> "") as Hne
    by (vm_compute; discriminate).
  destruct (X2_rewrite_cuts_the_end "de" example_source) as (cut & Hcut & Hlt).
  split; [exact Hne |].
  exists cut. split; [exact Hcut | exact (Hlt Hne)].
Defined.

(** X3.  A content that holds none of the characters [#], [z], [=] and
    backslash is left alone by the four substitutions, for any locale; all
    that happens to it is the truncation. *)
Theorem X3_plain_content_only_truncated (locale source : string) :
  has_char "#" source = false -> has_char "z" source = false ->
  has_char "=" source = false -> has_char "\" source = false ->
  substitute locale source = source
  /\ rewrite_content locale source = truncate source.
Proof.
  intros Hhash Hz Heq Hbs.
  pose proof (substitute_without_triggers locale source Hhash Hz Heq Hbs) as Hsub.
  split; [exact Hsub |]. unfold rewrite_content. rewrite Hsub. reflexivity.
Qed.

Lemma X3_plain_content_only_truncated_witness :
  has_char "#" ("hello: 'Hallo'" +:+ str nl) = false
  /\ has_char "z" ("hello: 'Hallo'" +:+ str nl) = false
  /\ has_char "=" ("hello: 'Hallo'" +:+ str nl) = false
  /\ has_char "\" ("hello: 'Hallo'" +:+ str nl) = false
  /\ rewrite_content "de" ("hello: 'Hallo'" +:+ str nl)
     = truncate ("hello: 'Hallo'" +:+ str nl).
Proof.
  destruct (X3_plain_content_only_truncated "de" ("hello: 'Hallo'" +:+ str nl)
              eq_refl eq_refl eq_refl eq_refl) as [_ H].
  split; [reflexivity |]. split; [reflexivity |]. split; [reflexivity |].
  split; [reflexivity | exact H].
Defined.

(** ** Occurrences of a pattern after a replacement *)

Section Occurrences.

Lemma occurs_here (p t : string) : occurs p (p +:+ t).
Proof. exists "", t. reflexivity. Qed.

Lemma occurs_later (p s : string) (c : ascii) :
  occurs p s -> occurs p (String c s).
Proof. intros (u & v & ->). exists (String c u), v. reflexivity. Qed.

Lemma occurs_app_r (p a t : string) : occurs p t -> occurs p (a +:+ t).
Proof.
  intros H. induction a as [|c a IH]; [exact H |]. apply occurs_later, IH.
Qed.

Lemma occurs_app_l (p s t : string) : occurs p s -> occurs p (s +:+ t).
Proof.
  intros (u & v & ->). exists u, (v +:+ t). rewrite !app_assoc_str. reflexivity.
Qed.

Lemma contains_occurs (p s : string) : contains p s = true <-> occurs p s.
Proof.
  split.
  - induction s as [|c s IH]; cbn [contains]; intros H.
    + destruct (prefix_split _ _ H) as [t Ht]. rewrite Ht. apply occurs_here.
    + apply orb_true_iff in H as [H | H].
      * destruct (prefix_split _ _ H) as [t Ht]. rewrite Ht. apply occurs_here.
      * apply occurs_later, IH, H.
  - intros (u & v & ->). induction u as [|c u IH].
    + cbn [String.append]. pose proof (prefix_app p v) as Hpre.
      destruct (p +:+ v) as [|d w]; cbn [contains]; [exact Hpre |].
      rewrite Hpre. reflexivity.
    + change (String c u +:+ p +:+ v) with (String c (u +:+ p +:+ v)).
      cbn [contains]. rewrite IH. apply orb_true_r.
Qed.

Lemma not_occurs_contains (p s : string) : ~ occurs p s -> contains p s = false.
Proof.
  intros H. destruct (contains p s) eqn:E; [| reflexivity].
  exfalso. apply H, contains_occurs, E.
Qed.

(** A first character of the result that is not the first character of the
    replacement has been copied from the text. *)
Lemma scan_head_copied (old n' t v : string) (n0 d : ascii) :
  old <> "" -> d <> n0 ->
  Py.replace_from old (String n0 n') 0 t = String d v ->
  exists t', t = String d t' /\ Py.replace_from old (String n0 n') 0 t' = v.
Proof.
  intros Hold Hd H. destruct t as [|x t0]; [discriminate |].
  destruct (String.prefix old (String x t0)) eqn:Hpre.
  - destruct (prefix_split _ _ Hpre) as [t1 Ht1].
    rewrite Ht1, (scan_hit _ _ Hold) in H. simpl in H.
    injection H as Hn _. congruence.
  - rewrite (scan_miss _ _ _ _ Hpre) in H. injection H as -> Hv.
    exists t0. split; [reflexivity | exact Hv].
Qed.

Local Abbreviation space_out := (Py.replace_from "='" " = '" 0).
Local Abbreviation unescape := (Py.replace_from "\:" ":" 0).

Lemma eq_quote_nonempty : "='" <> "".
Proof. discriminate. Qed.

Lemma backslash_colon_nonempty : "\:" <> "".
Proof. discriminate. Qed.

(** After the spacing step no [='] is left. *)
Lemma space_out_leaves_none (t : string) : ~ occurs "='" (space_out t).
Proof.
  remember (String.length t) as n eqn:Hn.
  revert t Hn. induction n as [n IH] using lt_wf_ind. intros t Hn (u & v & H).
  destruct t as [|x t0]; [destruct u; discriminate |].
  destruct (String.prefix "='" (String x t0)) eqn:Hpre.
  - destruct (prefix_split _ _ Hpre) as [t1 Ht1].
    assert (String.length t1 < n)%nat as Hlt
      by (subst n; rewrite Ht1, length_app_str; simpl; lia).
    rewrite Ht1, (scan_hit _ _ eq_quote_nonempty) in H.
    change (" = '" +:+ space_out t1) with (" " +:+ ("= '" +:+ space_out t1)) in H.
    change (u +:+ "='" +:+ v) with (u +:+ String "=" ("'" +:+ v)) in H.
    destruct (plain_prefix_split "=" " " _ _ _ eq_refl H) as (u1 & _ & H1).
    destruct u1 as [|y u1]; simpl in H1; [discriminate |].
    injection H1 as _ H1.
    change (String " " (String "'" (space_out t1)))
      with (" '" +:+ space_out t1) in H1.
    destruct (plain_prefix_split "=" " '" _ _ _ eq_refl H1) as (u2 & _ & H2).
    apply (IH _ Hlt t1 eq_refl). exists u2, v. exact H2.
  - rewrite (scan_miss _ _ _ _ Hpre) in H.
    destruct u as [|y u]; simpl in H; injection H as Hx H.
    + subst x.
      destruct (scan_head_copied "='" "= '" t0 v " " "'" eq_quote_nonempty) as (t' & -> & _);
        [discriminate | exact H |].
      change (String "=" (String "'" t')) with ("='" +:+ t') in Hpre.
      rewrite prefix_app in Hpre. discriminate.
    + apply (IH (String.length t0)) with (t := t0);
        [subst n; simpl; lia | reflexivity |].
      exists u, v. exact H.
Qed.

(** The unescaping step brings no [='] into a text that has none. *)
Lemma unescape_brings_none (t : string) :
  ~ occurs "='" t -> ~ occurs "='" (unescape t).
Proof.
  remember (String.length t) as n eqn:Hn.
  revert t Hn. induction n as [n IH] using lt_wf_ind.
  intros t Hn Hno (u & v & H).
  destruct t as [|x t0]; [destruct u; discriminate |].
  destruct (String.prefix "\:" (String x t0)) eqn:Hpre.
  - destruct (prefix_split _ _ Hpre) as [t1 Ht1].
    assert (String.length t1 < n)%nat as Hlt
      by (subst n; rewrite Ht1, length_app_str; simpl; lia).
    rewrite Ht1, (scan_hit _ _ backslash_colon_nonempty) in H.
    change (u +:+ "='" +:+ v) with (u +:+ String "=" ("'" +:+ v)) in H.
    destruct (plain_prefix_split "=" ":" _ _ _ eq_refl H) as (u1 & _ & H1).
    apply (IH _ Hlt t1 eq_refl).
    + intros Hocc. apply Hno. rewrite Ht1. apply occurs_app_r, Hocc.
    + exists u1, v. exact H1.
  - rewrite (scan_miss _ _ _ _ Hpre) in H.
    destruct u as [|y u]; simpl in H; injection H as Hx H.
    + subst x.
      destruct (scan_head_copied "\:" "" t0 v ":" "'" backslash_colon_nonempty)
        as (t' & -> & _); [discriminate | exact H |].
      apply Hno. exists "", t'. reflexivity.
    + apply (IH (String.length t0)) with (t := t0);
        [subst n; simpl; lia | reflexivity | |].
      * intros Hocc. apply Hno, occurs_later, Hocc.
      * exists u, v. exact H.
Qed.

Lemma substitute_leaves_no_eq_quote (locale source : string) :
  ~ occurs "='" (substitute locale source).
Proof.
  unfold substitute. rewrite !(replace_is_scan "\:") by discriminate.
  rewrite !(replace_is_scan "='") by discriminate.
  apply unescape_brings_none, space_out_leaves_none.
Qed.

End Occurrences.

(** X4.  Whatever the file held, what is written back holds no [='] any
    more: every assignment without spacing has been spaced out, the
    unescaping of colons brings none back, and the truncation only cuts. *)
Theorem X4_no_unspaced_assignment_left (locale source : string) :
  contains "='" (substitute locale source) = false
  /\ contains "='" (rewrite_content locale source) = false.
Proof.
  pose proof (substitute_leaves_no_eq_quote locale source) as Hsub.
  split; [apply not_occurs_contains, Hsub |].
  apply not_occurs_contains. intros Hocc. apply Hsub.
  destruct (truncate_cuts (substitute locale source)) as (cut & Hcut & _).
  rewrite Hcut. apply occurs_app_l. exact Hocc.
Qed.

(** X5.  Each of the three other substitutions acts on every occurrence of
    its pattern, whatever stands around it: the generator line is deleted,
    [='] becomes [ = '] and a backslash before a colon is dropped, and the
    text before and the text after are rewritten on their own. *)
Theorem X5_substitutions_act_everywhere (a b : string) :
  Py.replace generator_line "" (a +:+ generator_line +:+ b)
  = Py.replace generator_line "" a +:+ Py.replace generator_line "" b
  /\ Py.replace "='" " = '" (a +:+ "='" +:+ b)
     = Py.replace "='" " = '" a +:+ " = '" +:+ Py.replace "='" " = '" b
  /\ Py.replace "\:" ":" (a +:+ "\:" +:+ b)
     = Py.replace "\:" ":" a +:+ ":" +:+ Py.replace "\:" ":" b.
Proof.
  split; [| split].
  - rewrite !replace_is_scan by discriminate.
    apply (scan_occurrence generator_line ""); [discriminate | reflexivity].
  - rewrite !replace_is_scan by discriminate.
    apply (scan_occurrence "='" " = '"); [discriminate | reflexivity].
  - rewrite !replace_is_scan by discriminate.
    apply (scan_occurrence "\:" ":"); [discriminate | reflexivity].
Qed.

(** ** More about the loop body *)

Section LoopMore.

Lemma remove_country_renamed (filename : string) (w : world) :
  remove_country filename w
  = match renamed_name filename with
    | Some new => shutil_move (path_of filename) (path_of new) w
    | None => Ok w
    end.
Proof.
  unfold remove_country, renamed_name.
  destruct (Py.split "-" filename) as [|p0 [|p1 [|p2 [|p3 l]]]]; reflexivity.
Qed.

Lemma renamed_name_three (filename new : string) :
  renamed_name filename = Some new ->
  exists p0 p1 p2,
    Py.split "-" filename = [p0; p1; p2] /\ new = p0 +:+ "-" +:+ p1 +:+ ".coffee".
Proof.
  unfold renamed_name.
  destruct (Py.split "-" filename) as [|p0 [|p1 [|p2 [|p3 l]]]]; try discriminate.
  intros [= <-]. exists p0, p1, p2. split; reflexivity.
Qed.

Lemma renamed_name_none (filename : string) :
  renamed_name filename = None <-> length (Py.split "-" filename) <> 3%nat.
Proof.
  unfold renamed_name.
  destruct (Py.split "-" filename) as [|p0 [|p1 [|p2 [|p3 l]]]]; simpl;
    split; intros H; try reflexivity; try discriminate; congruence.
Qed.

(** The new name is never the old one. *)
Lemma renamed_name_differs (filename new : string) :
  renamed_name filename = Some new -> new <> filename.
Proof.
  intros H. destruct (renamed_name_three _ _ H) as (p0 & p1 & p2 & Hsplit & ->).
  intros Heq. rewrite (split_three _ _ _ _ Hsplit) in Heq.
  apply (inj (String.append p0)) in Heq.
  change ("-" +:+ p1 +:+ ".coffee") with (String "-" (p1 +:+ ".coffee")) in Heq.
  change ("-" +:+ p1 +:+ "-" +:+ p2) with (String "-" (p1 +:+ "-" +:+ p2)) in Heq.
  injection Heq as Heq. apply (inj (String.append p1)) in Heq. discriminate.
Qed.

(** No component of a split holds the separator. *)
Lemma split_components (sep : ascii) (s x : string) :
  x ∈ Py.split sep s -> has_char sep x = false.
Proof.
  revert x. induction s as [|c s IH]; intros x Hx.
  - cbn [Py.split] in Hx. apply list_elem_of_singleton in Hx as ->. reflexivity.
  - cbn [Py.split] in Hx. destruct (Ascii.eqb c sep) eqn:Hc.
    + apply elem_of_cons in Hx as [-> | Hx]; [reflexivity | apply IH, Hx].
    + pose proof (split_nonempty sep s) as Hne.
      destruct (Py.split sep s) as [|h t]; [congruence |].
      apply elem_of_cons in Hx as [-> | Hx].
      * cbn [has_char]. rewrite Hc. apply IH. left.
      * apply IH. right. exact Hx.
Qed.

(** A locale-bearing entry needs its file under the listed name. *)
Lemma process_locale (filename locale : string) (w : world) :
  get_locale filename = Some locale ->
  match files w !! path_of filename with
  | Some _ => exists w', process filename w = Ok w'
  | None =>
      exists w', process filename w = Raise (FileNotFoundError (path_of filename)) w'
  end.
Proof.
  intros Hloc. unfold process. rewrite Hloc.
  destruct (negb (Py.mem locale SUPPORTED_LOCALE)).
  - unfold os_remove, stdout_write. cbn [files stdout].
    destruct (files w !! path_of filename); eexists; reflexivity.
  - unfold read_file.
    destruct (files w !! path_of filename); cbn [mbind result_bind];
      eexists; reflexivity.
Qed.

Lemma loop_body_renamed_locale (filename new locale : string) (w : world) :
  renamed_name filename = Some new -> get_locale filename = Some locale ->
  exists w', loop_body filename w = Raise (FileNotFoundError (path_of filename)) w'.
Proof.
  intros Hnew Hloc. unfold loop_body. rewrite remove_country_renamed, Hnew.
  unfold shutil_move. destruct (files w !! path_of filename) as [content|] eqn:Hfile;
    cbn [mbind result_bind]; [| eexists; reflexivity].
  pose proof (process_locale filename locale
    (World (<[path_of new := content]> (delete (path_of filename) (files w)))
           (stdout w)) Hloc) as Hproc.
  cbn [files] in Hproc.
  rewrite lookup_insert_ne, lookup_delete_eq in Hproc; [exact Hproc |].
  intros Heq. apply path_of_inj in Heq.
  exact (renamed_name_differs _ _ Hnew Heq).
Qed.

End LoopMore.

(** ** What an iteration and a run leave alone *)

Section Frame.

Lemma prefix_refl_str (s : string) : String.prefix s s = true.
Proof. rewrite <- (app_empty_r s) at 2. apply prefix_app. Qed.

Lemma prefix_trans_str (a b c : string) :
  String.prefix a b = true -> String.prefix b c = true -> String.prefix a c = true.
Proof.
  intros Hab Hbc.
  destruct (prefix_split _ _ Hab) as [t ->].
  destruct (prefix_split _ _ Hbc) as [t' ->].
  rewrite app_assoc_str. apply prefix_app.
Qed.

Ltac loop_cases filename w :=
  unfold loop_body; rewrite remove_country_renamed;
  destruct (renamed_name filename) as [new|] eqn:Hnew;
  [unfold shutil_move;
   destruct (files w !! path_of filename) as [content|] eqn:Hfile |];
  cbn [mbind result_bind outcome];
  unfold process; destruct (get_locale filename) as [locale|] eqn:Hloc;
  try (destruct (Py.mem locale SUPPORTED_LOCALE) eqn:Hsup; cbn [negb]);
  unfold os_remove, read_file, write_file, stdout_write; cbn [files stdout];
  repeat match goal with
         | |- context [match ?m !! ?k with _ => _ end] =>
             let E := fresh "E" in destruct (m !! k) eqn:E
         end;
  cbn [mbind result_bind outcome files stdout].

Lemma loop_body_files_frame (filename p : string) (w : world) :
  p <> path_of filename ->
  (forall new, renamed_name filename = Some new -> p <> path_of new) ->
  files (outcome (loop_body filename w)) !! p = files w !! p.
Proof.
  intros Hp Hnewp. loop_cases filename w;
    try specialize (Hnewp _ eq_refl);
    rewrite ?lookup_insert_ne, ?lookup_delete_ne by congruence;
    rewrite ?lookup_insert_ne, ?lookup_delete_ne by congruence;
    reflexivity.
Qed.

Lemma loop_body_stdout_grows (filename : string) (w : world) :
  String.prefix (stdout w) (stdout (outcome (loop_body filename w))) = true.
Proof.
  loop_cases filename w; first [apply prefix_refl_str | apply prefix_app].
Qed.

Lemma loop_body_stdout_same (filename : string) (w : world) :
  (forall locale, get_locale filename = Some locale ->
                  Py.mem locale SUPPORTED_LOCALE = true) ->
  stdout (outcome (loop_body filename w)) = stdout w.
Proof.
  intros Hall. loop_cases filename w; try reflexivity;
    specialize (Hall _ eq_refl); congruence.
Qed.

Lemma outcome_run_loop_cons (g : string) (rest : list string) (w : world) :
  outcome (run_loop (g :: rest) w)
  = match loop_body g w with
    | Ok w1 => outcome (run_loop rest w1)
    | Raise _ w1 => w1
    end.
Proof. cbn [run_loop]. destruct (loop_body g w); reflexivity. Qed.

Lemma run_loop_files_frame (listing : list string) (p : string) (w : world) :
  (forall f, f ∈ listing ->
             p <> path_of f
             /\ forall new, renamed_name f = Some new -> p <> path_of new) ->
  files (outcome (run_loop listing w)) !! p = files w !! p.
Proof.
  revert w. induction listing as [|g rest IH]; intros w Hp; [reflexivity |].
  rewrite outcome_run_loop_cons.
  destruct (Hp g) as [Hg Hgnew]; [left |].
  pose proof (loop_body_files_frame g p w Hg Hgnew) as Hstep.
  destruct (loop_body g w) as [w1|e w1]; cbn [outcome] in Hstep;
    [| exact Hstep].
  rewrite IH; [exact Hstep |]. intros f Hf. apply Hp. right. exact Hf.
Qed.

Lemma run_loop_stdout_grows (listing : list string) (w : world) :
  String.prefix (stdout w) (stdout (outcome (run_loop listing w))) = true.
Proof.
  revert w. induction listing as [|g rest IH]; intros w;
    [apply prefix_refl_str |].
  rewrite outcome_run_loop_cons.
  pose proof (loop_body_stdout_grows g w) as Hstep.
  destruct (loop_body g w) as [w1|e w1]; cbn [outcome] in Hstep;
    [| exact Hstep].
  exact (prefix_trans_str _ _ _ Hstep (IH w1)).
Qed.

Lemma run_loop_stdout_same (listing : list string) (w : world) :
  (forall f locale, f ∈ listing -> get_locale f = Some locale ->
                    Py.mem locale SUPPORTED_LOCALE = true) ->
  stdout (outcome (run_loop listing w)) = stdout w.
Proof.
  revert w. induction listing as [|g rest IH]; intros w Hall; [reflexivity |].
  rewrite outcome_run_loop_cons.
  assert (stdout (outcome (loop_body g w)) = stdout w) as Hstep
    by (apply loop_body_stdout_same; intros locale; apply Hall; left).
  destruct (loop_body g w) as [w1|e w1]; cbn [outcome] in Hstep;
    [| exact Hstep].
  rewrite IH; [exact Hstep |]. intros f locale Hf. apply Hall. right. exact Hf.
Qed.

End Frame.

(** ** The file names of the translation service *)

Section ServiceNames.

Lemma code_chars_split (s : string) :
  code_chars s = true -> has_char "-" s = false /\ has_char "." s = false.
Proof.
  unfold code_chars. intros H. apply andb_true_iff in H as [Hd Hp].
  apply negb_true_iff in Hd, Hp. auto.
Qed.

Lemma supported_code (locale : string) :
  Py.mem locale SUPPORTED_LOCALE = true ->
  code_chars locale = true /\ String.length locale = 2%nat.
Proof.
  intros H. destruct (supported_cases _ H) as [-> | [-> | [-> | [-> | [-> | ->]]]]];
    split; reflexivity.
Qed.

Lemma two_chars (s : string) :
  String.length s = 2%nat -> exists x y, s = String x (String y "").
Proof.
  destruct s as [|x [|y [|z s]]]; try discriminate. intros _. eauto.
Qed.

Lemma strip_strings_no_dash (rest : string) :
  has_char "-" rest = false -> Py.replace "strings-" "" ("strings-" +:+ rest) = rest.
Proof.
  intros Hd. rewrite replace_is_scan by discriminate.
  rewrite scan_hit by discriminate.
  rewrite (scan_absent "strings-" "" "-") by (reflexivity || exact Hd).
  reflexivity.
Qed.

(** Behind a two-character locale and a dash nothing of [strings-] is found
    either. *)
Lemma strip_strings_country (locale rest : string) :
  String.length locale = 2%nat -> has_char "-" locale = false ->
  has_char "-" rest = false ->
  Py.replace "strings-" "" ("strings-" +:+ locale +:+ "-" +:+ rest)
  = locale +:+ "-" +:+ rest.
Proof.
  intros Hlen Hl Hr. destruct (two_chars _ Hlen) as (x & y & ->).
  rewrite replace_is_scan by discriminate.
  rewrite scan_hit by discriminate.
  change (String x (String y "") +:+ "-" +:+ rest)
    with (String x (String y (String "-" rest))).
  rewrite scan_miss.
  2:{ destruct (String.prefix "strings-" (String x (String y (String "-" rest))))
        eqn:E; [| reflexivity].
      apply prefix_cons in E as [_ E]. apply prefix_cons in E as [_ E].
      apply prefix_cons in E as [E _]. discriminate. }
  rewrite scan_miss.
  2:{ destruct (String.prefix "strings-" (String y (String "-" rest)))
        eqn:E; [| reflexivity].
      apply prefix_cons in E as [_ E]. apply prefix_cons in E as [E _].
      discriminate. }
  rewrite scan_miss by (apply prefix_cons_ne; discriminate).
  rewrite (scan_absent "strings-" "" "-") by (reflexivity || exact Hr).
  reflexivity.
Qed.

Lemma get_locale_locale_file_code (locale : string) :
  code_chars locale = true -> String.length locale = 2%nat ->
  get_locale (locale_file locale) = Some locale.
Proof.
  intros Hc Hlen. apply code_chars_split in Hc as [Hd Hp].
  unfold get_locale, locale_file.
  rewrite strip_strings_no_dash by (rewrite has_char_app, Hd; reflexivity).
  rewrite strip_coffee_suffix by exact Hp.
  unfold Py.len. rewrite Hlen. reflexivity.
Qed.

Lemma get_locale_country_file_code (locale country : string) :
  code_chars locale = true -> code_chars country = true ->
  String.length locale = 2%nat ->
  get_locale (country_file locale country) = None.
Proof.
  intros Hl Hc Hlen.
  apply code_chars_split in Hl as [Hld Hlp].
  apply code_chars_split in Hc as [Hcd Hcp].
  unfold get_locale, country_file.
  rewrite strip_strings_country
    by (first [exact Hlen | exact Hld | rewrite has_char_app, Hcd; reflexivity]).
  change (locale +:+ "-" +:+ country +:+ ".coffee")
    with (locale +:+ "-" +:+ (country +:+ ".coffee")).
  rewrite <- !app_assoc_str.
  rewrite strip_coffee_suffix
    by (rewrite !has_char_app, Hlp, Hcp; reflexivity).
  unfold Py.len. rewrite !length_app_str, Hlen. reflexivity.
Qed.

Lemma renamed_name_locale_file (locale : string) :
  code_chars locale = true -> renamed_name (locale_file locale) = None.
Proof.
  intros Hc. apply code_chars_split in Hc as [Hd _].
  unfold renamed_name, locale_file.
  change ("strings-" +:+ locale +:+ ".coffee")
    with ("strings" +:+ "-" +:+ locale +:+ ".coffee").
  rewrite split_app by reflexivity.
  rewrite split_no_sep by (rewrite has_char_app, Hd; reflexivity).
  reflexivity.
Qed.

Lemma renamed_name_country_file (locale country : string) :
  code_chars locale = true -> code_chars country = true ->
  renamed_name (country_file locale country) = Some (locale_file locale).
Proof.
  intros Hl Hc.
  apply code_chars_split in Hl as [Hld _].
  apply code_chars_split in Hc as [Hcd _].
  unfold renamed_name, country_file.
  change ("strings-" +:+ locale +:+ "-" +:+ country +:+ ".coffee")
    with ("strings" +:+ "-" +:+ locale +:+ "-" +:+ country +:+ ".coffee").
  rewrite split_app by reflexivity. rewrite split_app by exact Hld.
  rewrite split_no_sep by (rewrite has_char_app, Hcd; reflexivity).
  reflexivity.
Qed.

Lemma country_file_inj (locale c1 c2 : string) :
  country_file locale c1 = country_file locale c2 -> c1 = c2.
Proof.
  unfold country_file. intros H.
  apply (inj (String.append "strings-")) in H.
  apply (inj (String.append locale)) in H.
  apply (inj (String.append "-")) in H.
  revert c2 H. induction c1 as [|x c1 IH]; intros [|y c2] H; simpl in H.
  - reflexivity.
  - exfalso. apply (f_equal String.length) in H.
    simpl in H. rewrite length_app_str in H. simpl in H. lia.
  - exfalso. apply (f_equal String.length) in H.
    simpl in H. rewrite length_app_str in H. simpl in H. lia.
  - injection H as -> H. f_equal. apply IH, H.
Qed.

(** The iteration on a country file: it is moved onto the plain name of
    its locale, content as it is, and nothing else happens. *)
Lemma loop_body_country_file (locale country content : string) (w : world) :
  code_chars locale = true -> code_chars country = true ->
  String.length locale = 2%nat ->
  files w !! path_of (country_file locale country) = Some content ->
  loop_body (country_file locale country) w
  = Ok (World (<[path_of (locale_file locale) := content]>
                 (delete (path_of (country_file locale country)) (files w)))
              (stdout w)).
Proof.
  intros Hl Hc Hlen Hfile.
  rewrite (loop_body_no_locale _ _ (get_locale_country_file_code _ _ Hl Hc Hlen)).
  rewrite remove_country_renamed, (renamed_name_country_file _ _ Hl Hc).
  unfold shutil_move. rewrite Hfile. reflexivity.
Qed.

Lemma country_not_locale_file (locale country : string) :
  code_chars locale = true -> code_chars country = true ->
  path_of (country_file locale country) <> path_of (locale_file locale).
Proof.
  intros Hl Hc Heq. apply path_of_inj in Heq.
  pose proof (renamed_name_country_file _ _ Hl Hc) as H1.
  rewrite Heq, (renamed_name_locale_file _ Hl) in H1. discriminate.
Qed.

End ServiceNames.

(** ** Further properties of the loop *)

(** X6.  An entry whose name splits into three components and also
    yields a locale never completes its iteration when its file exists: the
    file is moved to the new name, for an unsupported locale the line is
    printed, and then the access to the listed path, which is stale by now,
    raises; the file is left under the new name with the content it had.
    An entry whose name does neither is skipped: nothing is read, changed
    or printed, whether its file exists or not. *)
Theorem X6_stale_path_raises (filename : string) (w : world) :
  (forall p0 p1 p2 locale content,
     Py.split "-" filename = [p0; p1; p2] ->
     get_locale filename = Some locale ->
     files w !! path_of filename = Some content ->
     loop_body filename w
     = Raise (FileNotFoundError (path_of filename))
         (World (<[path_of (p0 +:+ "-" +:+ p1 +:+ ".coffee") := content]>
                   (delete (path_of filename) (files w)))
                (if Py.mem locale SUPPORTED_LOCALE then stdout w
                 else stdout w +:+ removal_message locale (path_of filename))))
  /\ (length (Py.split "-" filename) <> 3%nat ->
      get_locale filename = None ->
      loop_body filename w = Ok w).
Proof.
  split.
  - intros p0 p1 p2 locale content Hsplit Hloc Hfile.
    assert (path_of (p0 +:+ "-" +:+ p1 +:+ ".coffee") <> path_of filename) as Hne.
    { intros Heq. apply path_of_inj in Heq.
      apply (renamed_name_differs filename (p0 +:+ "-" +:+ p1 +:+ ".coffee"));
        [unfold renamed_name; rewrite Hsplit; reflexivity | exact Heq]. }
    unfold loop_body.
    rewrite (remove_country_three _ _ _ _ _ _ Hsplit Hfile).
    cbn [mbind result_bind]. unfold process. rewrite Hloc.
    destruct (Py.mem locale SUPPORTED_LOCALE); cbn [negb].
    + unfold read_file. cbn [files].
      rewrite lookup_insert_ne by exact Hne. rewrite lookup_delete_eq.
      reflexivity.
    + unfold os_remove, stdout_write. cbn [files stdout].
      rewrite lookup_insert_ne by exact Hne. rewrite lookup_delete_eq.
      reflexivity.
  - intros Hlen Hloc.
    rewrite (loop_body_no_locale _ _ Hloc). apply remove_country_other, Hlen.
Qed.

Lemma X6_stale_path_raises_witness :
  Py.split "-" "strings-strings-fr.coffee" = ["strings"; "strings"; "fr.coffee"]
  /\ get_locale "strings-strings-fr.coffee" = Some "fr"
  /\ files (dir_single "strings-strings-fr.coffee" "x")
       !! path_of "strings-strings-fr.coffee" = Some "x"
  /\ length (Py.split "-" "README") <> 3%nat
  /\ get_locale "README" = None
  /\ loop_body "strings-strings-fr.coffee" (dir_single "strings-strings-fr.coffee" "x")
     = Raise (FileNotFoundError (path_of "strings-strings-fr.coffee"))
         (World (<[path_of ("strings" +:+ "-" +:+ "strings" +:+ ".coffee") := "x"]>
                   (delete (path_of "strings-strings-fr.coffee")
                           (files (dir_single "strings-strings-fr.coffee" "x"))))
                (if Py.mem "fr" SUPPORTED_LOCALE
                 then stdout (dir_single "strings-strings-fr.coffee" "x")
                 else stdout (dir_single "strings-strings-fr.coffee" "x")
                      +:+ removal_message "fr" (path_of "strings-strings-fr.coffee")))
  /\ loop_body "README" (World ∅ "") = Ok (World ∅ "").
Proof.
  assert (Py.split "-" "strings-strings-fr.coffee"
          = ["strings"; "strings"; "fr.coffee"]) as Hsplit by reflexivity.
  assert (get_locale "strings-strings-fr.coffee" = Some "fr") as Hloc
    by reflexivity.
  assert (files (dir_single "strings-strings-fr.coffee" "x")
            !! path_of "strings-strings-fr.coffee" = Some "x") as Hfile
    by (vm_compute; reflexivity).
  assert (length (Py.split "-" "README") <> 3%nat) as Hlen
    by (vm_compute; discriminate).
  assert (get_locale "README" = None) as Hnone by reflexivity.
  destruct (X6_stale_path_raises "strings-strings-fr.coffee"
              (dir_single "strings-strings-fr.coffee" "x")) as [Hstale _].
  destruct (X6_stale_path_raises "README" (World ∅ "")) as [_ Hskip].
  split; [exact Hsplit |]. split; [exact Hloc |]. split; [exact Hfile |].
  split; [exact Hlen |]. split; [exact Hnone |].
  split; [exact (Hstale _ _ _ _ _ Hsplit Hloc Hfile) | exact (Hskip Hlen Hnone)].
Defined.

(** X7.  The name a file is moved to differs from the old one and has
    exactly two components, so the renaming step leaves a renamed file
    alone from then on. *)
Theorem X7_renamed_file_not_renamed_again
    (filename p0 p1 p2 : string) (w : world) :
  Py.split "-" filename = [p0; p1; p2] ->
  p0 +:+ "-" +:+ p1 +:+ ".coffee" <> filename
  /\ Py.split "-" (p0 +:+ "-" +:+ p1 +:+ ".coffee") = [p0; p1 +:+ ".coffee"]
  /\ remove_country (p0 +:+ "-" +:+ p1 +:+ ".coffee") w = Ok w.
Proof.
  intros Hsplit.
  assert (renamed_name filename = Some (p0 +:+ "-" +:+ p1 +:+ ".coffee")) as Hnew
    by (unfold renamed_name; rewrite Hsplit; reflexivity).
  split; [apply renamed_name_differs, Hnew |].
  assert (has_char "-" p0 = false) as H0
    by (apply (split_components "-" filename); rewrite Hsplit; left).
  assert (has_char "-" p1 = false) as H1
    by (apply (split_components "-" filename); rewrite Hsplit; right; left).
  assert (Py.split "-" (p0 +:+ "-" +:+ p1 +:+ ".coffee") = [p0; p1 +:+ ".coffee"])
    as Hs.
  { rewrite (split_app _ _ H0), split_no_sep; [reflexivity |].
    rewrite has_char_app, H1. reflexivity. }
  split; [exact Hs |].
  apply remove_country_other. rewrite Hs. discriminate.
Qed.

Lemma X7_renamed_file_not_renamed_again_witness :
  Py.split "-" "strings-pt-BR.coffee" = ["strings"; "pt"; "BR.coffee"]
  /\ Py.split "-" ("strings" +:+ "-" +:+ "pt" +:+ ".coffee")
     = ["strings"; "pt" +:+ ".coffee"]
  /\ remove_country ("strings" +:+ "-" +:+ "pt" +:+ ".coffee") (World ∅ "")
     = Ok (World ∅ "").
Proof.
  assert (Py.split "-" "strings-pt-BR.coffee" = ["strings"; "pt"; "BR.coffee"])
    as Hsplit by reflexivity.
  destruct (X7_renamed_file_not_renamed_again "strings-pt-BR.coffee"
              "strings" "pt" "BR.coffee" (World ∅ "") Hsplit) as (_ & Hs & Hrc).
  split; [exact Hsplit |]. split; [exact Hs | exact Hrc].
Defined.

(** X8.  Whether a run ends normally or with an exception, the world it
    leaves differs from the one it found only at the paths of the listed
    entries and of the names they are moved to; the standard output is
    only ever extended; and it is left as it was when no listed entry has
    an unsupported locale. *)
Theorem X8_run_touches_only_listed (listing : list string) (w : world) :
  (forall p,
     (forall f, f ∈ listing ->
        p <> path_of f
        /\ forall p0 p1 p2, Py.split "-" f = [p0; p1; p2] ->
                            p <> path_of (p0 +:+ "-" +:+ p1 +:+ ".coffee")) ->
     files (outcome (run_loop listing w)) !! p = files w !! p)
  /\ String.prefix (stdout w) (stdout (outcome (run_loop listing w))) = true
  /\ ((forall f locale, f ∈ listing -> get_locale f = Some locale ->
                        Py.mem locale SUPPORTED_LOCALE = true) ->
      stdout (outcome (run_loop listing w)) = stdout w).
Proof.
  split; [| split].
  - intros p Hp. apply run_loop_files_frame. intros f Hf.
    destruct (Hp f Hf) as [Hpf Hnew]. split; [exact Hpf |].
    intros new Hren.
    destruct (renamed_name_three _ _ Hren) as (p0 & p1 & p2 & Hsplit & ->).
    exact (Hnew p0 p1 p2 Hsplit).
  - apply run_loop_stdout_grows.
  - apply run_loop_stdout_same.
Qed.

Lemma X8_run_touches_only_listed_witness :
  (forall f locale, f ∈ ["strings-de.coffee"] -> get_locale f = Some locale ->
                    Py.mem locale SUPPORTED_LOCALE = true)
  /\ stdout (outcome (run_loop ["strings-de.coffee"] dir_fr_de)) = stdout dir_fr_de
  /\ files (outcome (run_loop ["strings-de.coffee"] dir_fr_de))
       !! path_of "strings-fr.coffee"
     = files dir_fr_de !! path_of "strings-fr.coffee".
Proof.
  assert (forall f locale, f ∈ ["strings-de.coffee"] -> get_locale f = Some locale ->
                           Py.mem locale SUPPORTED_LOCALE = true) as Hsup.
  { intros f locale Hf. apply list_elem_of_singleton in Hf as ->.
    intros [= <-]. reflexivity. }
  destruct (X8_run_touches_only_listed ["strings-de.coffee"] dir_fr_de)
    as (Hframe & _ & Hout).
  split; [exact Hsup |]. split; [exact (Hout Hsup) |].
  apply Hframe. intros f Hf. apply list_elem_of_singleton in Hf as ->.
  split; [intros Heq; apply path_of_inj in Heq; discriminate |].
  intros p0 p1 p2 Hsplit. vm_compute in Hsplit. discriminate.
Defined.

(** X9.  A listed entry whose name splits into three components and also
    yields a locale stops the run: when the entries before it went through,
    its own iteration raises on the path of that entry and the entries
    after it are never processed.  So a run that ends normally had no such
    entry in its listing. *)
Theorem X9_run_stops_at_stale_entry (listing : list string) (w : world) :
  (forall before f after w1,
     listing = before ++ f :: after ->
     length (Py.split "-" f) = 3%nat -> is_Some (get_locale f) ->
     run_loop before w = Ok w1 ->
     run_loop listing w = loop_body f w1
     /\ exists w2, loop_body f w1 = Raise (FileNotFoundError (path_of f)) w2)
  /\ (forall w', run_loop listing w = Ok w' ->
       forall f, f ∈ listing ->
         length (Py.split "-" f) <> 3%nat \/ get_locale f = None).
Proof.
  assert (forall f w0, length (Py.split "-" f) = 3%nat -> is_Some (get_locale f) ->
            exists w2, loop_body f w0 = Raise (FileNotFoundError (path_of f)) w2)
    as Hstale.
  { intros f w0 Hlen [locale Hloc].
    destruct (renamed_name f) as [new|] eqn:Hnew.
    - exact (loop_body_renamed_locale f new locale w0 Hnew Hloc).
    - apply renamed_name_none in Hnew. contradiction. }
  split.
  - intros before f after w1 -> Hlen Hloc Hrun.
    destruct (Hstale f w1 Hlen Hloc) as [w2 Hraise].
    split; [| exists w2; exact Hraise].
    rewrite run_loop_app, Hrun. cbn [mbind result_bind run_loop].
    rewrite Hraise. reflexivity.
  - revert w. induction listing as [|g rest IH]; intros w w' Hrun f Hf;
      [inversion Hf |].
    cbn [run_loop] in Hrun.
    destruct (loop_body g w) as [w1|e w1] eqn:Hbody;
      cbn [mbind result_bind] in Hrun; [| discriminate].
    apply elem_of_cons in Hf as [-> | Hf]; [| exact (IH w1 w' Hrun f Hf)].
    destruct (decide (length (Py.split "-" g) = 3%nat)) as [Hlen | Hlen];
      [| left; exact Hlen].
    destruct (get_locale g) as [locale|] eqn:Hloc; [| right; reflexivity].
    destruct (Hstale g w Hlen) as [w2 Hraise]; [rewrite Hloc; eauto |].
    congruence.
Qed.

Lemma X9_run_stops_at_stale_entry_witness :
  length (Py.split "-" "strings-strings-de.coffee") = 3%nat
  /\ is_Some (get_locale "strings-strings-de.coffee")
  /\ run_loop ["strings-fr.coffee"]
       (World {[ path_of "strings-fr.coffee" := "a";
                 path_of "strings-strings-de.coffee" := "b";
                 path_of "strings-ro.coffee" := "c" ]} "")
     = Ok (World {[ path_of "strings-strings-de.coffee" := "b";
                    path_of "strings-ro.coffee" := "c" ]}
                 (removal_message "fr" (path_of "strings-fr.coffee")))
  /\ run_loop ["strings-fr.coffee"; "strings-strings-de.coffee"; "strings-ro.coffee"]
       (World {[ path_of "strings-fr.coffee" := "a";
                 path_of "strings-strings-de.coffee" := "b";
                 path_of "strings-ro.coffee" := "c" ]} "")
     = loop_body "strings-strings-de.coffee"
         (World {[ path_of "strings-strings-de.coffee" := "b";
                   path_of "strings-ro.coffee" := "c" ]}
                (removal_message "fr" (path_of "strings-fr.coffee"))).
Proof.
  assert (length (Py.split "-" "strings-strings-de.coffee") = 3%nat) as Hlen
    by reflexivity.
  assert (is_Some (get_locale "strings-strings-de.coffee")) as Hloc
    by (exists "de"; reflexivity).
  assert (run_loop ["strings-fr.coffee"]
            (World {[ path_of "strings-fr.coffee" := "a";
                      path_of "strings-strings-de.coffee" := "b";
                      path_of "strings-ro.coffee" := "c" ]} "")
          = Ok (World {[ path_of "strings-strings-de.coffee" := "b";
                         path_of "strings-ro.coffee" := "c" ]}
                      (removal_message "fr" (path_of "strings-fr.coffee"))))
    as Hrun by (vm_compute; reflexivity).
  destruct (X9_run_stops_at_stale_entry
              ["strings-fr.coffee"; "strings-strings-de.coffee"; "strings-ro.coffee"]
              (World {[ path_of "strings-fr.coffee" := "a";
                        path_of "strings-strings-de.coffee" := "b";
                        path_of "strings-ro.coffee" := "c" ]} ""))
    as [Hstop _].
  destruct (Hstop ["strings-fr.coffee"] "strings-strings-de.coffee"
              ["strings-ro.coffee"] _ eq_refl Hlen Hloc Hrun) as [Heq _].
  split; [exact Hlen |]. split; [exact Hloc |]. split; [exact Hrun | exact Heq].
Defined.

(** X10.  For every two-character code without dash and dot, and so for
    every supported locale, the file name [strings-<l>.coffee] gives the
    code back as its locale, while [strings-<l>-<c>.coffee] gives no locale
    at all, whatever the country code. *)
Theorem X10_locale_of_service_names (locale country : string) :
  (code_chars locale = true -> String.length locale = 2%nat ->
   get_locale (locale_file locale) = Some locale
   /\ (code_chars country = true ->
       get_locale (country_file locale country) = None))
  /\ (Py.mem locale SUPPORTED_LOCALE = true ->
      get_locale (locale_file locale) = Some locale).
Proof.
  split.
  - intros Hc Hlen. split; [apply get_locale_locale_file_code; assumption |].
    intros Hcc. apply get_locale_country_file_code; assumption.
  - intros Hsup. destruct (supported_code _ Hsup) as [Hc Hlen].
    apply get_locale_locale_file_code; assumption.
Qed.

Lemma X10_locale_of_service_names_witness :
  code_chars "es" = true /\ String.length "es" = 2%nat
  /\ code_chars "ES" = true /\ Py.mem "es" SUPPORTED_LOCALE = true
  /\ get_locale (locale_file "es") = Some "es"
  /\ get_locale (country_file "es" "ES") = None.
Proof.
  destruct (X10_locale_of_service_names "es" "ES") as [Hcode Hsup].
  destruct (Hcode eq_refl eq_refl) as [_ Hcountry].
  split; [reflexivity |]. split; [reflexivity |]. split; [reflexivity |].
  split; [reflexivity |]. split; [exact (Hsup eq_refl) | exact (Hcountry eq_refl)].
Defined.

(** X11.  What an iteration does with [strings-<l>.coffee], for a
    two-character code [l] without dash and dot whose file exists: when
    [l] is supported the content is rewritten in place and nothing is
    printed; when it is not, the file is deleted and its line printed. *)
Theorem X11_iteration_on_locale_file (locale content : string) (w : world) :
  code_chars locale = true -> String.length locale = 2%nat ->
  files w !! path_of (locale_file locale) = Some content ->
  loop_body (locale_file locale) w
  = if Py.mem locale SUPPORTED_LOCALE
    then Ok (World (<[path_of (locale_file locale)
                       := rewrite_content locale content]> (files w))
                   (stdout w))
    else Ok (World (delete (path_of (locale_file locale)) (files w))
                   (stdout w
                    +:+ removal_message locale (path_of (locale_file locale)))).
Proof.
  intros Hc Hlen Hfile.
  pose proof (get_locale_locale_file_code _ Hc Hlen) as Hloc.
  assert (length (Py.split "-" (locale_file locale)) <> 3%nat) as Hsplit
    by (apply renamed_name_none, renamed_name_locale_file, Hc).
  destruct (Py.mem locale SUPPORTED_LOCALE) eqn:Hsup.
  - apply (loop_body_supported _ _ content); assumption.
  - apply (loop_body_unsupported _ _ content); assumption.
Qed.

Lemma X11_iteration_on_locale_file_witness :
  code_chars "fr" = true /\ String.length "fr" = 2%nat
  /\ files dir_fr_de !! path_of (locale_file "fr")
     = Some ("z.string.bonjour = 1" +:+ str nl)
  /\ loop_body (locale_file "fr") dir_fr_de
     = (if Py.mem "fr" SUPPORTED_LOCALE
        then Ok (World (<[path_of (locale_file "fr")
                           := rewrite_content "fr" ("z.string.bonjour = 1" +:+ str nl)]>
                          (files dir_fr_de))
                       (stdout dir_fr_de))
        else Ok (World (delete (path_of (locale_file "fr")) (files dir_fr_de))
                       (stdout dir_fr_de
                        +:+ removal_message "fr" (path_of (locale_file "fr"))))).
Proof.
  assert (files dir_fr_de !! path_of (locale_file "fr")
          = Some ("z.string.bonjour = 1" +:+ str nl)) as Hfile
    by (vm_compute; reflexivity).
  split; [reflexivity |]. split; [reflexivity |]. split; [exact Hfile |].
  exact (X11_iteration_on_locale_file "fr" _ dir_fr_de eq_refl eq_refl Hfile).
Defined.

(** X12.  Two country files of one locale collide: both are moved onto
    [strings-<l>.coffee], and the one listed later wins.  After the two
    iterations the plain file holds the content of the second, the first
    content is lost, both country files are gone and nothing was printed. *)
Theorem X12_later_country_file_wins
    (locale c1 c2 x1 x2 : string) (w : world) :
  code_chars locale = true -> String.length locale = 2%nat ->
  code_chars c1 = true -> code_chars c2 = true -> c1 <> c2 ->
  files w !! path_of (country_file locale c1) = Some x1 ->
  files w !! path_of (country_file locale c2) = Some x2 ->
  exists w',
    run_loop [country_file locale c1; country_file locale c2] w = Ok w'
    /\ files w' !! path_of (locale_file locale) = Some x2
    /\ files w' !! path_of (country_file locale c1) = None
    /\ files w' !! path_of (country_file locale c2) = None
    /\ stdout w' = stdout w.
Proof.
  intros Hl Hlen Hc1 Hc2 Hne Hf1 Hf2.
  pose proof (country_not_locale_file _ _ Hl Hc1) as Hd1.
  pose proof (country_not_locale_file _ _ Hl Hc2) as Hd2.
  assert (path_of (country_file locale c1) <> path_of (country_file locale c2))
    as H12.
  { intros Heq. apply path_of_inj, country_file_inj in Heq. contradiction. }
  eexists. split.
  - cbn [run_loop].
    rewrite (loop_body_country_file _ _ x1 w Hl Hc1 Hlen Hf1).
    cbn [mbind result_bind].
    rewrite (loop_body_country_file _ _ x2 _ Hl Hc2 Hlen).
    + cbn [mbind result_bind]. reflexivity.
    + cbn [files]. rewrite lookup_insert_ne by congruence.
      rewrite lookup_delete_ne by congruence. exact Hf2.
  - cbn [files stdout]. split; [apply lookup_insert_eq |].
    split; [| split; [| reflexivity]].
    + rewrite lookup_insert_ne by congruence.
      rewrite lookup_delete_ne by congruence.
      rewrite lookup_insert_ne by congruence. apply lookup_delete_eq.
    + rewrite lookup_insert_ne by congruence. apply lookup_delete_eq.
Qed.

Lemma X12_later_country_file_wins_witness :
  code_chars "pt" = true /\ String.length "pt" = 2%nat
  /\ code_chars "BR" = true /\ code_chars "PT" = true /\ "BR" <> "PT"
  /\ exists w',
      run_loop [country_file "pt" "BR"; country_file "pt" "PT"]
        (World {[ path_of (country_file "pt" "BR") := "brasil";
                  path_of (country_file "pt" "PT") := "portugal" ]} "")
      = Ok w'
      /\ files w' !! path_of (locale_file "pt") = Some "portugal".
Proof.
  assert ("BR" <> "PT") as Hne by discriminate.
  destruct (X12_later_country_file_wins "pt" "BR" "PT" "brasil" "portugal"
              (World {[ path_of (country_file "pt" "BR") := "brasil";
                        path_of (country_file "pt" "PT") := "portugal" ]} "")
              eq_refl eq_refl eq_refl eq_refl Hne)
    as (w' & Hrun & Hlook & _);
    [vm_compute; reflexivity | vm_compute; reflexivity |].
  split; [reflexivity |]. split; [reflexivity |]. split; [reflexivity |].
  split; [reflexivity |]. split; [exact Hne |].
  exists w'. split; [exact Hrun | exact Hlook].
Defined.

(** X13.  Whether a downloaded country file of a supported locale gets
    its content rewritten in the same run depends on the order of the
    listing.  With [strings-<l>-<c>.coffee] and [strings-<l>.coffee] both
    in the directory: listed in this order, the plain file ends up with the
    rewritten content of the country file; listed the other way round, it
    ends up with the content of the country file as downloaded. *)
Theorem X13_rewrite_depends_on_listing_order
    (locale country x y : string) (w : world) :
  Py.mem locale SUPPORTED_LOCALE = true -> code_chars country = true ->
  files w !! path_of (country_file locale country) = Some x ->
  files w !! path_of (locale_file locale) = Some y ->
  (exists w1,
     run_loop [country_file locale country; locale_file locale] w = Ok w1
     /\ files w1 !! path_of (locale_file locale) = Some (rewrite_content locale x)
     /\ files w1 !! path_of (country_file locale country) = None)
  /\ (exists w2,
        run_loop [locale_file locale; country_file locale country] w = Ok w2
        /\ files w2 !! path_of (locale_file locale) = Some x
        /\ files w2 !! path_of (country_file locale country) = None).
Proof.
  intros Hsup Hc Hx Hy.
  destruct (supported_code _ Hsup) as [Hl Hlen].
  pose proof (country_not_locale_file _ _ Hl Hc) as Hd.
  pose proof (get_locale_locale_file_code _ Hl Hlen) as Hloc.
  assert (length (Py.split "-" (locale_file locale)) <> 3%nat) as Hsplit
    by (apply renamed_name_none, renamed_name_locale_file, Hl).
  split.
  - eexists. split.
    + cbn [run_loop].
      rewrite (loop_body_country_file _ _ x w Hl Hc Hlen Hx).
      cbn [mbind result_bind].
      rewrite (loop_body_supported _ _ x _ Hloc Hsup Hsplit)
        by (cbn [files]; apply lookup_insert_eq).
      cbn [mbind result_bind]. reflexivity.
    + cbn [files]. split; [apply lookup_insert_eq |].
      rewrite !lookup_insert_ne by congruence. apply lookup_delete_eq.
  - eexists. split.
    + cbn [run_loop].
      rewrite (loop_body_supported _ _ y w Hloc Hsup Hsplit Hy).
      cbn [mbind result_bind].
      rewrite (loop_body_country_file _ _ x _ Hl Hc Hlen)
        by (cbn [files]; rewrite lookup_insert_ne by congruence; exact Hx).
      cbn [mbind result_bind]. reflexivity.
    + cbn [files]. split; [apply lookup_insert_eq |].
      rewrite lookup_insert_ne by congruence. apply lookup_delete_eq.
Qed.

Lemma X13_rewrite_depends_on_listing_order_witness :
  Py.mem "es" SUPPORTED_LOCALE = true /\ code_chars "ES" = true
  /\ (exists w1,
        run_loop [country_file "es" "ES"; locale_file "es"]
          (World {[ path_of (country_file "es" "ES") := example_source;
                    path_of (locale_file "es") := "old" ]} "")
        = Ok w1
        /\ files w1 !! path_of (locale_file "es")
           = Some (rewrite_content "es" example_source))
  /\ (exists w2,
        run_loop [locale_file "es"; country_file "es" "ES"]
          (World {[ path_of (country_file "es" "ES") := example_source;
                    path_of (locale_file "es") := "old" ]} "")
        = Ok w2
        /\ files w2 !! path_of (locale_file "es") = Some example_source).
Proof.
  destruct (X13_rewrite_depends_on_listing_order "es" "ES" example_source "old"
              (World {[ path_of (country_file "es" "ES") := example_source;
                        path_of (locale_file "es") := "old" ]} "")
              eq_refl eq_refl)
    as [(w1 & Hr1 & Hl1 & _) (w2 & Hr2 & Hl2 & _)];
    [vm_compute; reflexivity | vm_compute; reflexivity |].
  split; [reflexivity |]. split; [reflexivity |].
  split; [exists w1; split; assumption | exists w2; split; assumption].
Defined.

(** ** The whole script on the directory as it is *)

Section WholeScript.

Lemma strip_prefix_some (p s t : string) :
  strip_prefix p s = Some t -> s = p +:+ t.
Proof.
  revert s. induction p as [|a p IH]; intros s H.
  - injection H as ->. reflexivity.
  - destruct s as [|b s]; [discriminate |]. cbn [strip_prefix] in H.
    destruct (Ascii.eqb a b) eqn:Hab; [| discriminate].
    apply Ascii.eqb_eq in Hab as ->. rewrite (IH _ H). reflexivity.
Qed.

Lemma strip_prefix_app (p t : string) : strip_prefix p (p +:+ t) = Some t.
Proof.
  induction p as [|a p IH]; [reflexivity |].
  cbn [String.append strip_prefix]. rewrite Ascii.eqb_refl. exact IH.
Qed.

Lemma entry_of_some (path name : string) :
  entry_of path = Some name <-> path = path_of name /\ has_char "/" name = false.
Proof.
  unfold entry_of, path_of. split.
  - destruct (strip_prefix root path) as [n|] eqn:Hs; [| discriminate].
    destruct (has_char "/" n) eqn:Hn; [discriminate |].
    intros [= <-]. split; [apply strip_prefix_some, Hs | exact Hn].
  - intros [-> Hn]. rewrite strip_prefix_app, Hn. reflexivity.
Qed.

(** The listing holds exactly the files directly under [root]. *)
Lemma elem_of_listdir (fs : gmap string string) (f : string) :
  f ∈ listdir fs <-> is_Some (fs !! path_of f) /\ has_char "/" f = false.
Proof.
  unfold listdir. rewrite list_elem_of_omap. split.
  - intros ([k v] & Hkv & Hentry). cbn [fst] in Hentry.
    apply entry_of_some in Hentry as [-> Hf].
    apply elem_of_map_to_list in Hkv. split; [eauto | exact Hf].
  - intros [[v Hv] Hf]. exists (path_of f, v). split.
    + apply elem_of_map_to_list, Hv.
    + cbn [fst]. apply entry_of_some. split; [reflexivity | exact Hf].
Qed.

Lemma main_is_run_loop
    (os_system : string -> gmap string string -> Z * gmap string string)
    (os_listdir : gmap string string -> list string) (w : world) :
  main os_system os_listdir w
  = run_loop
      (os_listdir (snd (os_system download_cmd (snd (os_system upload_cmd (files w))))))
      (World (snd (os_system download_cmd (snd (os_system upload_cmd (files w)))))
             (stdout w)).
Proof.
  unfold main. destruct (os_system upload_cmd (files w)) as [s1 fs1].
  cbn [snd]. destruct (os_system download_cmd fs1) as [s2 fs2]. reflexivity.
Qed.

End WholeScript.

(** X14.  The whole script, whatever the two external commands do and
    return and in whatever order the directory is listed, as long as the
    listing holds every file directly under the directory: if after the
    commands one of these files has a name that splits into three
    components and also yields a locale, the script ends with an
    exception. *)
Theorem X14_script_raises_on_stale_entry
    (os_system : string -> gmap string string -> Z * gmap string string)
    (os_listdir : gmap string string -> list string)
    (w : world) (f : string) :
  (forall fs g, is_Some (fs !! path_of g) -> has_char "/" g = false ->
                g ∈ os_listdir fs) ->
  is_Some (snd (os_system download_cmd (snd (os_system upload_cmd (files w))))
           !! path_of f) ->
  has_char "/" f = false ->
  length (Py.split "-" f) = 3%nat -> is_Some (get_locale f) ->
  exists e w', main os_system os_listdir w = Raise e w'.
Proof.
  intros Hlists Hfile Hslash Hlen [locale Hloc].
  rewrite main_is_run_loop.
  set (fs2 := snd (os_system download_cmd (snd (os_system upload_cmd (files w)))))
    in *.
  specialize (Hlists fs2 f Hfile Hslash).
  generalize dependent (World fs2 (stdout w)).
  induction (os_listdir fs2) as [|g rest IH]; intros w0; [inversion Hlists |].
  cbn [run_loop].
  destruct (loop_body g w0) as [w1|e w1] eqn:Hbody; cbn [mbind result_bind];
    [| eauto].
  apply elem_of_cons in Hlists as [<- | Hin]; [| exact (IH Hin w1)].
  exfalso.
  destruct (renamed_name f) as [new|] eqn:Hnew.
  - destruct (loop_body_renamed_locale f new locale w0 Hnew Hloc) as [w2 Hraise].
    congruence.
  - apply renamed_name_none in Hnew. contradiction.
Qed.

Lemma X14_script_raises_on_stale_entry_witness :
  (forall fs g, is_Some (fs !! path_of g) -> has_char "/" g = false ->
                g ∈ listdir fs)
  /\ is_Some (snd (failing_command download_cmd
                     (snd (failing_command upload_cmd
                             (files (dir_single "strings-strings-de.coffee" "b")))))
              !! path_of "strings-strings-de.coffee")
  /\ has_char "/" "strings-strings-de.coffee" = false
  /\ length (Py.split "-" "strings-strings-de.coffee") = 3%nat
  /\ is_Some (get_locale "strings-strings-de.coffee")
  /\ exists e w',
      main failing_command listdir (dir_single "strings-strings-de.coffee" "b")
      = Raise e w'.
Proof.
  assert (forall fs g, is_Some (fs !! path_of g) -> has_char "/" g = false ->
                       g ∈ listdir fs) as Hlists
    by (intros fs g Hg Hs; apply elem_of_listdir; split; assumption).
  assert (is_Some (snd (failing_command download_cmd
                          (snd (failing_command upload_cmd
                                  (files (dir_single "strings-strings-de.coffee" "b")))))
                   !! path_of "strings-strings-de.coffee")) as Hfile
    by (exists "b"; vm_compute; reflexivity).
  assert (is_Some (get_locale "strings-strings-de.coffee")) as Hloc
    by (exists "de"; reflexivity).
  split; [exact Hlists |]. split; [exact Hfile |]. split; [reflexivity |].
  split; [reflexivity |]. split; [exact Hloc |].
  exact (X14_script_raises_on_stale_entry failing_command listdir
           (dir_single "strings-strings-de.coffee" "b") "strings-strings-de.coffee"
           Hlists Hfile eq_refl eq_refl Hloc).
Defined.

(** ** What a run prints *)

Section Report.

Ltac body_cases filename w :=
  unfold loop_body; rewrite remove_country_renamed;
  destruct (renamed_name filename) as [new|];
  [unfold shutil_move; destruct (files w !! path_of filename) as [content|] |];
  cbn [mbind result_bind];
  unfold process, report_entry; destruct (get_locale filename) as [locale|];
  try (destruct (Py.mem locale SUPPORTED_LOCALE); cbn [negb]);
  unfold os_remove, read_file, write_file, stdout_write; cbn [files stdout];
  repeat match goal with
         | |- context [match ?m !! ?k with _ => _ end] =>
             let E := fresh "E" in destruct (m !! k) eqn:E
         end;
  cbn [mbind result_bind files stdout].

Lemma loop_body_report (filename : string) (w : world) :
  match loop_body filename w with
  | Ok w' => stdout w' = stdout w +:+ report_entry filename
  | Raise _ _ => True
  end.
Proof.
  body_cases filename w; first [exact I | reflexivity | symmetry; apply app_empty_r].
Qed.

End Report.

(** X15.  A run that ends normally has printed exactly one line for every
    listed entry with an unsupported locale, in the order of the listing,
    and nothing else. *)
Theorem X15_one_line_per_unsupported_entry
    (listing : list string) (w w' : world) :
  run_loop listing w = Ok w' ->
  stdout w' = stdout w +:+ report listing.
Proof.
  revert w. induction listing as [|g rest IH]; intros w Hrun.
  - injection Hrun as <-. symmetry. apply app_empty_r.
  - cbn [run_loop] in Hrun. pose proof (loop_body_report g w) as Hstep.
    destruct (loop_body g w) as [w1|e w1]; cbn [mbind result_bind] in Hrun;
      [| discriminate].
    rewrite (IH _ Hrun), Hstep. cbn [report]. apply app_assoc_str.
Qed.

Lemma X15_one_line_per_unsupported_entry_witness :
  run_loop ["strings-fr.coffee"; "strings-de.coffee"] dir_fr_de
  = Ok (World {[ path_of "strings-de.coffee" := rewrite_content "de" example_source ]}
              (removal_message "fr" (path_of "strings-fr.coffee")))
  /\ removal_message "fr" (path_of "strings-fr.coffee")
     = stdout dir_fr_de +:+ report ["strings-fr.coffee"; "strings-de.coffee"].
Proof.
  assert (run_loop ["strings-fr.coffee"; "strings-de.coffee"] dir_fr_de
          = Ok (World {[ path_of "strings-de.coffee"
                           := rewrite_content "de" example_source ]}
                      (removal_message "fr" (path_of "strings-fr.coffee"))))
    as Hrun by (vm_compute; reflexivity).
  split; [exact Hrun |].
  exact (X15_one_line_per_unsupported_entry _ _ _ Hrun).
Defined.
